(** * cities_weather.py: selection of clear-sky cities

    A shallow embedding of [src/cities_weather.py] and the properties of its
    two functions [get_weather] and [select_cities].

    Python values are a small inductive type, exceptions are an error
    result, and the two observable effects of the script (lines printed on
    the console and maps shown) are collected in a trace.  The libraries the
    script calls (requests, pandas/geopandas, time, matplotlib) are the
    environment: they are taken as type-class parameters, pandas' sort and
    merge together with the laws every pandas version satisfies. *)

From Stdlib Require Import ZArith Ascii String List Bool Lia Permutation Sorted.
From Stdlib Require Import DecimalString.
Import ListNotations.

Set Warnings "-register-all".

Local Open Scope string_scope.
Local Open Scope Z_scope.

(** ** Python values *)

(** A Python [float], as far as the script can tell floats apart: it never
    computes with them, it only tests for NaN ([fillna]) and prints them. *)
Inductive pyfloat : Type :=
| NaN
| Inf (negative : bool)
| Dyadic (mantissa exponent : Z).

(** What [response.json()] can return, and what a DataFrame cell can hold. *)
Inductive value : Type :=
| VNone
| VBool (b : bool)
| VInt (n : Z)
| VFloat (f : pyfloat)
| VStr (s : string)
| VList (items : list value)
| VDict (entries : list (string * value)).

(** [np.nan], the marker the script stores for a failed request. *)
Definition np_nan : value := VFloat NaN.

Inductive exn : Type :=
| KeyError (key : value)
| IndexError
| TypeError
| ValueError
| JSONDecodeError
| UnboundLocalError (variable : string)
| LibraryError (what : string).

Inductive result (A : Type) : Type :=
| Ok (a : A)
| Raise (e : exn).
Arguments Ok {A} a.
Arguments Raise {A} e.

Definition rbind {A B} (r : result A) (f : A -> result B) : result B :=
  match r with
  | Ok a => f a
  | Raise e => Raise e
  end.

(** [str(n)] for an integer, as [str.format] and [print] render it. *)
Definition str_of_int (n : Z) : string := NilZero.string_of_int (Z.to_int n).

Fixpoint dict_get (entries : list (string * value)) (key : string) : option value :=
  match entries with
  | [] => None
  | (k, v) :: rest => if String.eqb k key then Some v else dict_get rest key
  end.

(** Python's normalisation of a (possibly negative) index against a length. *)
Definition py_index (len : nat) (i : Z) : option nat :=
  let n := Z.of_nat len in
  if (0 <=? i) && (i <? n) then Some (Z.to_nat i)
  else if (i <? 0) && (0 <=? n + i) then Some (Z.to_nat (n + i))
  else None.

(** [obj[key]] with a string key. *)
Definition getitem_str (obj : value) (key : string) : result value :=
  match obj with
  | VDict entries =>
      match dict_get entries key with
      | Some v => Ok v
      | None => Raise (KeyError (VStr key))
      end
  | _ => Raise TypeError
  end.

(** [obj[i]] with an integer index.  The keys of a parsed JSON object are
    strings, so an integer is never found in one. *)
Definition getitem_int (obj : value) (i : Z) : result value :=
  match obj with
  | VDict _ => Raise (KeyError (VInt i))
  | VList items =>
      match py_index (length items) i with
      | Some k => match nth_error items k with
                  | Some v => Ok v
                  | None => Raise IndexError
                  end
      | None => Raise IndexError
      end
  | VStr s =>
      match py_index (String.length s) i with
      | Some k => match String.get k s with
                  | Some c => Ok (VStr (String c EmptyString))
                  | None => Raise IndexError
                  end
      | None => Raise IndexError
      end
  | _ => Raise TypeError
  end.

(** ** Tables *)

(** A row of the populated-places shapefile. *)
Record place : Type := {
  nameascii : string;
  iso_a2 : string;
  pop_max : Z;
  geometry : pyfloat * pyfloat
}.

(** A row of the provider's catalog, [city.list.json]. *)
Record city_id_record : Type := {
  name : string;
  country : string;
  id : Z
}.

(** A row of the inner join: the columns of both sides. *)
Record joined : Type := {
  place_of : place;
  entry_of : city_id_record
}.

(** A selected row once the three weather columns are assigned. *)
Record selected : Type := {
  row_of : joined;
  weather : value;
  weather_description : value;
  clouds : value
}.

(** A response object of the requests library: [json = None] is a body
    that [response.json()] cannot decode. *)
Record response : Type := {
  status_code : Z;
  text : string;
  json : option value
}.

(** ** Effects *)

Inductive event : Type :=
| Printed (line : string)
| Shown (dataset : list selected) (title : string).

(** A computation: the events it caused, then its value or the exception
    that ended it. *)
Definition M (A : Type) : Type := (list event * result A)%type.

Definition ret {A} (a : A) : M A := ([], Ok a).

Definition bind {A B} (m : M A) (f : A -> M B) : M B :=
  match m with
  | (tr, Ok a) => let (tr', r) := f a in ((tr ++ tr')%list, r)
  | (tr, Raise e) => (tr, Raise e)
  end.

Definition lift {A} (r : result A) : M A := ([], r).
Definition raise {A} (e : exn) : M A := ([], Raise e).
Definition print (line : string) : M unit := ([Printed line], Ok tt).

Declare Scope py_scope.
Delimit Scope py_scope with py.
Notation "x <- m ;; k" := (bind m (fun x => k))
  (at level 61, m at next level, right associativity) : py_scope.
Notation "' pat <- m ;; k" := (bind m (fun x => match x with pat => k end))
  (at level 61, pat pattern, m at next level, right associativity) : py_scope.
Notation "m ;;; k" := (bind m (fun _ => k))
  (at level 61, right associativity) : py_scope.
Local Open Scope py_scope.

Fixpoint for_each {S A} (body : S -> A -> M S) (st : S) (l : list A) : M S :=
  match l with
  | [] => ret st
  | a :: rest => st' <- body st a ;; for_each body st' rest
  end.

(** ** The environment *)

(** The library calls of the script whose results are not determined by the
    script: files, the [str.format] mini-language, the network, [int] on a
    string, the local clock format and the drawing calls.  Each of them
    returns or raises.  The network is the mapping from a URL to what a GET
    of it gives during the run, as a mocked server has it. *)
Class World : Type := {
  gpd_read_file : string -> result (list place);
  pd_read_json : string -> result (list city_id_record);
  str_format : string -> Z -> result string;
  requests_get : string -> result response;
  int_of_str : string -> result Z;
  strftime_localtime : Z -> result string;
  draw_map : list selected -> string -> result unit
}.

Definition key_is (k : string) (r : joined) : bool :=
  String.eqb (nameascii (place_of r)) k.

(** The float [mantissa * 2 ^ exponent] is the integer [n]. *)
Definition represents (mantissa exponent n : Z) : Prop :=
  if 0 <=? exponent then mantissa * 2 ^ exponent = n
  else mantissa = n * 2 ^ (- exponent).

(** What a cell of a column holds for the value [v] of the list the column
    is assigned from.  pandas gives the column one dtype: a list of numbers
    with a NaN or a None in it becomes a column of floats, where an integer
    is the float of the same value (rounded beyond 2 ^ 53) and None is NaN;
    in any other case the cell is the value itself. *)
Definition column_cell (v cell : value) : Prop :=
  cell = v \/
  (v = VNone /\ cell = VFloat NaN) \/
  (exists n mantissa exponent,
      v = VInt n /\ cell = VFloat (Dyadic mantissa exponent) /\
      (Z.abs n <= 2 ^ 53 -> represents mantissa exponent n)).

(** [sort_values('pop_max', ascending=False)],
    [merge(how='inner', left_on='nameascii', right_on='name')] and the
    conversion of a list to the cells of a column.  The order of ties in the
    sort, the order of the keys in the join and the rules of dtype inference
    are not fixed across pandas versions; the laws are what all of them give:
    the sort is a descending permutation, the joined rows of one key are the
    left rows of that key in left order, each with its matches in right
    order, and each cell of a column is the [column_cell] of the value at its
    position. *)
Class Pandas : Type := {
  sort_values : list place -> list place;
  merge : list place -> list city_id_record -> list joined;
  to_column : list value -> list value;
  to_column_cells : forall l, Forall2 column_cell l (to_column l);
  sort_values_perm : forall l, Permutation (sort_values l) l;
  sort_values_desc : forall l,
    StronglySorted (fun a b => pop_max b <= pop_max a) (sort_values l);
  merge_by_key : forall l r k,
    filter (key_is k) (merge l r) =
    flat_map (fun p => map (Build_joined p)
                           (filter (fun c => String.eqb (name c) k) r))
             (filter (fun p => String.eqb (nameascii p) k) l)
}.

(** ** get_weather *)

(** The variables of the loop; [resp_j] is unbound before the first
    iteration. *)
Record loop_state : Type := {
  weath_main : list value;
  weath_desc : list value;
  cloud_cov : list value;
  resp_j : option value
}.

Definition loop_init : loop_state :=
  {| weath_main := []; weath_desc := []; cloud_cov := []; resp_j := None |}.

Definition response_json (r : response) : result value :=
  match json r with
  | Some j => Ok j
  | None => Raise JSONDecodeError
  end.

(** [resp_j['weather'][0]['main']] *)
Definition weather_0_main (j : value) : result value :=
  rbind (getitem_str j "weather") (fun w =>
  rbind (getitem_int w 0) (fun w0 =>
  getitem_str w0 "main")).

(** [resp_j['clouds']['all']] *)
Definition clouds_all (j : value) : result value :=
  rbind (getitem_str j "clouds") (fun c => getitem_str c "all").

(** ** The pandas steps of select_cities that are plain list functions *)

(** [fulldataset[fulldataset['iso_a2'] == fulldataset['country']]] *)
Definition country_match (rows : list joined) : list joined :=
  filter (fun r => String.eqb (iso_a2 (place_of r)) (country (entry_of r))) rows.

(** [drop_duplicates(subset='nameascii', keep='first')]: a row is dropped
    when an earlier row has its name. *)
Fixpoint drop_duplicates_from (seen : list string) (rows : list joined)
  : list joined :=
  match rows with
  | [] => []
  | r :: rest =>
      let k := nameascii (place_of r) in
      if existsb (String.eqb k) seen
      then drop_duplicates_from seen rest
      else r :: drop_duplicates_from (k :: seen) rest
  end.

Definition drop_duplicates (rows : list joined) : list joined :=
  drop_duplicates_from [] rows.

(** [rows[0:stop]], with Python's reading of a negative [stop]. *)
Definition slice_to {A} (rows : list A) (stop : Z) : list A :=
  let n := Z.of_nat (length rows) in
  let stop' := if stop <? 0 then Z.max (n + stop) 0 else Z.min stop n in
  firstn (Z.to_nat stop') rows.

(** The three assignments [sel_dataset.loc[:, column] = values]; pandas
    raises ValueError when a list has not the length of the table, and
    stores each list as a column of one dtype. *)
Definition assign_weather {pandas : Pandas}
    (rows : list joined) (main desc cov : list value)
  : result (list selected) :=
  if ((length main =? length rows)%nat && (length desc =? length rows)%nat
      && (length cov =? length rows)%nat)%bool
  then Ok (map (fun x => match x with
                         | (r, m, d, c) =>
                             {| row_of := r; weather := m;
                                weather_description := d; clouds := c |}
                         end)
               (combine (combine (combine rows (to_column main))
                                 (to_column desc))
                        (to_column cov)))
  else Raise ValueError.

Definition isna (v : value) : bool :=
  match v with
  | VNone => true
  | VFloat NaN => true
  | _ => false
  end.

Definition fill (v : value) : value :=
  if isna v then VStr "No data" else v.

(** [fillna('No data', inplace=True)] on the weather columns (the other
    columns hold strings and numbers, never a missing value, in this model). *)
Definition fillna (rows : list selected) : list selected :=
  map (fun r => {| row_of := row_of r;
                   weather := fill (weather r);
                   weather_description := fill (weather_description r);
                   clouds := fill (clouds r) |}) rows.

(** One cell of [sel_dataset['weather'] == 'Clear']. *)
Definition is_clear (v : value) : bool :=
  match v with
  | VStr s => String.eqb s "Clear"
  | _ => false
  end.

(** [final_dataset[['nameascii', 'clouds']]] *)
Definition project (rows : list selected) : list (string * value) :=
  map (fun r => (nameascii (place_of (row_of r)), clouds r)) rows.

Section Script.
Context {world : World} {pandas : Pandas}.

(** One iteration of the loop of [get_weather]. *)
Definition get_weather_body (API_URL : string) (st : loop_state) (city_id : Z)
  : M loop_state :=
  url <- lift (str_format API_URL city_id) ;;
  response <- lift (requests_get url) ;;
  resp_j' <- lift (response_json response) ;;
  if status_code response =? 200 then
    main <- lift (weather_0_main resp_j') ;;
    desc <- lift (weather_0_main resp_j') ;;
    cov <- lift (clouds_all resp_j') ;;
    ret {| weath_main := (weath_main st ++ [main])%list;
           weath_desc := (weath_desc st ++ [desc])%list;
           cloud_cov := (cloud_cov st ++ [cov])%list;
           resp_j := Some resp_j' |}
  else
    print ("Request not successfull for city_id " ++ str_of_int city_id) ;;;
    print (str_of_int (status_code response) ++ " " ++ text response) ;;;
    ret {| weath_main := (weath_main st ++ [np_nan])%list;
           weath_desc := (weath_desc st ++ [np_nan])%list;
           cloud_cov := (cloud_cov st ++ [np_nan])%list;
           resp_j := Some resp_j' |}.

Definition get_weather_return (st : loop_state)
  : M (list value * list value * list value * value) :=
  match resp_j st with
  | None => raise (UnboundLocalError "resp_j")
  | Some j =>
      dt <- lift (getitem_str j "dt") ;;
      ret (cloud_cov st, weath_desc st, weath_main st, dt)
  end.

Definition get_weather (API_URL : string) (id_list : list Z)
  : M (list value * list value * list value * value) :=
  st <- for_each (get_weather_body API_URL) loop_init id_list ;;
  get_weather_return st.

(** ** plot_on_map *)

(** The geopandas and matplotlib calls either raise or end in [plt.show()]. *)
Definition plot_on_map (dataset : list selected) (title : string) : M unit :=
  lift (draw_map dataset title) ;;;
  ([Shown dataset title], Ok tt).

(** ** select_cities *)

(** [int(format(resp_time))]: [format] gives [str(resp_time)], which is a
    decimal numeral only for an integer or for a string that is one. *)
Definition int_of_format (v : value) : result Z :=
  match v with
  | VInt n => Ok n
  | VStr s => int_of_str s
  | _ => Raise ValueError
  end.

Definition select_cities (selection : Z) (appid : string)
  : M (list (string * value)) :=
  let path_data := "data_populated_places/ne_10m_populated_places_simple.shp" in
  let path_cityid := "data_populated_places/city.list.json" in
  cities_data <- lift (gpd_read_file path_data) ;;
  cities_id <- lift (pd_read_json path_cityid) ;;
  let sorted_cities := sort_values cities_data in
  let fulldataset := merge sorted_cities cities_id in
  let full_dataset := country_match fulldataset in
  let clear_dataset := drop_duplicates full_dataset in
  let sel_dataset := slice_to clear_dataset selection in
  let id_list := map (fun r => id (entry_of r)) sel_dataset in
  let api_path := "http://api.openweathermap.org/data/2.5/weather?id={}&APPID=" in
  let API_URL := api_path ++ appid in
  '(cloud_cov, weath_desc, weath_main, resp_time) <- get_weather API_URL id_list ;;
  seconds <- lift (int_of_format resp_time) ;;
  timestr <- lift (strftime_localtime seconds) ;;
  sel_dataset <- lift (assign_weather sel_dataset weath_main weath_desc cloud_cov) ;;
  let sel_dataset := fillna sel_dataset in
  let title_clouds :=
    "Cloud % coverage of " ++ str_of_int selection ++ " most populated cities" in
  plot_on_map sel_dataset title_clouds ;;;
  let final_dataset := filter (fun r => is_clear (weather r)) sel_dataset in
  let title_clear := "Location of selected clear sky city on " ++ timestr in
  plot_on_map final_dataset title_clear ;;;
  ret (project final_dataset).

End Script.

(** ** Predicates of the specification *)

Section Specification.
Context {world : World}.

(** What one iteration appends for a response whose body decodes to [j]. *)
Definition observed (r : response) (j : value) (main desc cov : value) : Prop :=
  if status_code r =? 200
  then weather_0_main j = Ok main /\ weather_0_main j = Ok desc
       /\ clouds_all j = Ok cov
  else main = np_nan /\ desc = np_nan /\ cov = np_nan.

(** The two lines printed for a failed request. *)
Definition diagnostic (city_id : Z) (r : response) : list event :=
  [Printed ("Request not successfull for city_id " ++ str_of_int city_id);
   Printed (str_of_int (status_code r) ++ " " ++ text r)].

(** The entries for [city_id]: it was requested, the body decoded, and the
    three values are the ones the iteration appends. *)
Definition answers (API_URL : string) (city_id : Z) (main desc cov : value)
  : Prop :=
  exists url r j,
    str_format API_URL city_id = Ok url /\ requests_get url = Ok r /\
    json r = Some j /\ observed r j main desc cov.

(** The lists after the loop: one entry per identifier, in order. *)
Inductive aligned (API_URL : string)
  : list Z -> list value -> list value -> list value -> Prop :=
| aligned_nil : aligned API_URL [] [] [] []
| aligned_cons city_id ids main mains desc descs cov covs :
    answers API_URL city_id main desc cov ->
    aligned API_URL ids mains descs covs ->
    aligned API_URL (city_id :: ids) (main :: mains) (desc :: descs) (cov :: covs).

(** What a run of [get_weather] that returns has printed: the diagnostic of
    each identifier answered with another status than 200, in the order of
    the identifiers. *)
Definition diagnostics_of (API_URL : string) (id_list : list Z) : list event :=
  flat_map (fun city_id =>
              match str_format API_URL city_id with
              | Ok url =>
                  match requests_get url with
                  | Ok r => if status_code r =? 200 then []
                            else diagnostic city_id r
                  | Raise _ => []
                  end
              | Raise _ => []
              end) id_list.

End Specification.

(** The names [select_cities] gives to its files and to the URL template. *)
Definition path_data : string :=
  "data_populated_places/ne_10m_populated_places_simple.shp".
Definition path_cityid : string := "data_populated_places/city.list.json".
Definition weather_url (appid : string) : string :=
  "http://api.openweathermap.org/data/2.5/weather?id={}&APPID=" ++ appid.

(** [clear_dataset] and [sel_dataset] of [select_cities], as functions of the
    two tables read. *)
Definition clear_dataset_of {pandas : Pandas}
    (cities_data : list place) (cities_id : list city_id_record) : list joined :=
  drop_duplicates (country_match (merge (sort_values cities_data) cities_id)).

Definition sel_dataset_of {pandas : Pandas}
    (cities_data : list place) (cities_id : list city_id_record)
    (selection : Z) : list joined :=
  slice_to (clear_dataset_of cities_data cities_id) selection.

(** The two titles. *)
Definition title_clouds_of (selection : Z) : string :=
  "Cloud % coverage of " ++ str_of_int selection ++ " most populated cities".
Definition title_clear_of (timestr : string) : string :=
  "Location of selected clear sky city on " ++ timestr.

(** A row of the selection with the cells of the answer to its identifier. *)
Definition row_answered {world : World} (API_URL : string) (sel : list joined) (r : selected)
  : Prop :=
  In (row_of r) sel /\
  exists main desc cov,
    answers API_URL (id (entry_of (row_of r))) main desc cov /\
    column_cell main (weather r) /\
    column_cell desc (weather_description r) /\
    column_cell cov (clouds r).

(** The request for the identifier of a joined row is answered with status
    200 and a body whose [weather[0].main] is the string ["Clear"]. *)
Definition answered_clear {world : World} (appid : string) (row : joined) : Prop :=
  exists url r j,
    str_format (weather_url appid) (id (entry_of row)) = Ok url /\
    requests_get url = Ok r /\ json r = Some j /\
    status_code r = 200 /\ weather_0_main j = Ok (VStr "Clear").

(** A row without a missing value in its weather columns. *)
Definition no_missing (r : selected) : Prop :=
  isna (weather r) = false /\ isna (weather_description r) = false /\
  isna (clouds r) = false.

(** The rows with the two country codes equal. *)
Definition codes_match (r : selected) : Prop :=
  iso_a2 (place_of (row_of r)) = country (entry_of (row_of r)).

(** An event that is a printed line. *)
Definition printed (e : event) : Prop := exists line, e = Printed line.

(** The datasets shown have all their rows in [P]. *)
Definition shows (P : selected -> Prop) (e : event) : Prop :=
  match e with
  | Printed _ => True
  | Shown dataset _ => Forall P dataset
  end.


(** ** A reference pandas and a mocked world

    Used to run the script on concrete inputs. *)

Module Reference.

(** Insertion of a row in a list sorted by descending [pop_max], after the
    rows of equal population. *)
Fixpoint insert_desc (p : place) (l : list place) : list place :=
  match l with
  | [] => [p]
  | q :: rest =>
      if pop_max q <? pop_max p then p :: l else q :: insert_desc p rest
  end.

Definition sort_desc (l : list place) : list place :=
  fold_right insert_desc [] l.

(** The join in left row order. *)
Definition merge_left (l : list place) (r : list city_id_record) : list joined :=
  flat_map (fun p => map (Build_joined p)
                         (filter (fun c => String.eqb (name c) (nameascii p)) r))
           l.

(** The dtype a list of cells is given: floats when all the values are
    numbers or None and one of them is a float, or a None beside a number. *)
Definition number_or_none (v : value) : bool :=
  match v with
  | VInt _ | VFloat _ | VNone => true
  | _ => false
  end.

Definition is_float (v : value) : bool :=
  match v with VFloat _ => true | _ => false end.

Definition is_none (v : value) : bool :=
  match v with VNone => true | _ => false end.

Definition is_number (v : value) : bool :=
  match v with VInt _ | VFloat _ => true | _ => false end.

Definition float_column (l : list value) : bool :=
  forallb number_or_none l
  && (existsb is_float l || (existsb is_none l && existsb is_number l)).

Definition to_float (v : value) : value :=
  match v with
  | VInt n => VFloat (Dyadic n 0)
  | VNone => VFloat NaN
  | _ => v
  end.

Definition infer_column (l : list value) : list value :=
  if float_column l then map to_float l else l.

End Reference.

Module Mock.

(** [template.format(arg)] for a template whose only braces are one [{}]. *)
Fixpoint fill_slot (template arg : string) : string :=
  match template with
  | String "{"%char (String "}"%char rest) => arg ++ rest
  | String c rest => String c (fill_slot rest arg)
  | EmptyString => EmptyString
  end.

Definition digit_of (c : Ascii.ascii) : option Z :=
  let n := Z.of_nat (Ascii.nat_of_ascii c) in
  if (48 <=? n) && (n <=? 57) then Some (n - 48) else None.

Fixpoint digits_from (acc : Z) (s : string) : option Z :=
  match s with
  | EmptyString => Some acc
  | String c rest =>
      match digit_of c with
      | Some d => digits_from (10 * acc + d) rest
      | None => None
      end
  end.

(** [int(s)] on a plain run of decimal digits. *)
Definition int_of_digits (s : string) : result Z :=
  match s with
  | EmptyString => Raise ValueError
  | _ => match digits_from 0 s with
         | Some n => Ok n
         | None => Raise ValueError
         end
  end.

Fixpoint lookup {A} (table : list (string * A)) (key : string) : option A :=
  match table with
  | [] => None
  | (k, v) :: rest => if String.eqb k key then Some v else lookup rest key
  end.

(** A world with the two data files in place, a server that answers the
    listed URLs and refuses the connection for any other, a clock that
    prints the epoch seconds, and a renderer that never fails. *)
Definition world (places : list place) (catalog : list city_id_record)
    (server : list (string * response)) : World :=
  {| gpd_read_file := fun _ => Ok places;
     pd_read_json := fun _ => Ok catalog;
     str_format := fun template n => Ok (fill_slot template (str_of_int n));
     requests_get := fun url =>
       match lookup server url with
       | Some r => Ok r
       | None => Raise (LibraryError "ConnectionError")
       end;
     int_of_str := int_of_digits;
     strftime_localtime := fun n => Ok (str_of_int n);
     draw_map := fun _ _ => Ok tt |}.

(** The template [select_cities] builds for [appid = 'key']. *)
Definition api_url : string :=
  "http://api.openweathermap.org/data/2.5/weather?id={}&APPID=key".

Definition endpoint (n : Z) : string :=
  "http://api.openweathermap.org/data/2.5/weather?id=" ++ str_of_int n
  ++ "&APPID=key".

(** The body of a successful answer of the provider. *)
Definition observation (main description : string) (cover dt : Z) : value :=
  VDict [("weather", VList [VDict [("main", VStr main);
                                   ("description", VStr description)]]);
         ("clouds", VDict [("all", VInt cover)]);
         ("dt", VInt dt)].

Definition ok_response (main description : string) (cover dt : Z) : response :=
  {| status_code := 200; text := EmptyString;
     json := Some (observation main description cover dt) |}.

(** A double quote, and a JSON string literal. *)
Definition dquote : string := String (Ascii.ascii_of_nat 34) EmptyString.
Definition quoted (s : string) : string := dquote ++ s ++ dquote.

(** The text of the JSON object the provider sends with an error. *)
Definition error_text (cod message : string) : string :=
  "{" ++ quoted "cod" ++ ":" ++ quoted cod ++ ","
  ++ quoted "message" ++ ":" ++ quoted message ++ "}".

(** The provider's answer for an unknown city. *)
Definition not_found : response :=
  {| status_code := 404;
     text := error_text "404" "city not found";
     json := Some (VDict [("cod", VStr "404");
                          ("message", VStr "city not found")]) |}.

(** A gateway's answer: a page, not JSON. *)
Definition bad_gateway : response :=
  {| status_code := 502;
     text := "<html><body>502 Bad Gateway</body></html>";
     json := None |}.

(** A status 500 whose body is a JSON object without [dt]. *)
Definition server_error : response :=
  {| status_code := 500;
     text := error_text "500" "Internal server error";
     json := Some (VDict [("cod", VStr "500");
                          ("message", VStr "Internal server error")]) |}.

(** A status 500 whose body is a page of the web server. *)
Definition server_error_page : response :=
  {| status_code := 500;
     text := "<html><body>500 Internal Server Error</body></html>";
     json := None |}.

(** A status 500 whose body happens to carry an integer [dt]. *)
Definition server_error_with_dt (dt : Z) : response :=
  {| status_code := 500;
     text := "{" ++ quoted "cod" ++ ":" ++ quoted "500" ++ ","
             ++ quoted "dt" ++ ":" ++ str_of_int dt ++ "}";
     json := Some (VDict [("cod", VStr "500"); ("dt", VInt dt)]) |}.

Definition paris : place :=
  {| nameascii := "Paris"; iso_a2 := "FR"; pop_max := 2000000;
     geometry := (Dyadic 19 (-3), Dyadic 391 (-3)) |}.

Definition paris_id : city_id_record :=
  {| name := "Paris"; country := "FR"; id := 1 |}.

(** A small data set: three places, and a catalog in which Paris is listed
    twice, once in another country. *)
Definition london : place :=
  {| nameascii := "London"; iso_a2 := "GB"; pop_max := 8000000;
     geometry := (Dyadic (-1) (-3), Dyadic 412 (-3)) |}.

Definition lyon : place :=
  {| nameascii := "Lyon"; iso_a2 := "FR"; pop_max := 500000;
     geometry := (Dyadic 39 (-3), Dyadic 366 (-3)) |}.

Definition places : list place := [lyon; paris; london].

Definition catalog : list city_id_record :=
  [{| name := "Paris"; country := "US"; id := 9 |};
   paris_id;
   {| name := "London"; country := "GB"; id := 2 |};
   {| name := "Lyon"; country := "FR"; id := 3 |}].

Definition server : list (string * response) :=
  [(endpoint 1, ok_response "Clear" "clear sky" 5 1700000001);
   (endpoint 2, ok_response "Rain" "light rain" 80 1700000002);
   (endpoint 3, ok_response "Clear" "clear sky" 0 1700000003)].

(** Two places of one name, and the catalog entry of both. *)
Definition springfield_small : place :=
  {| nameascii := "Springfield"; iso_a2 := "US"; pop_max := 60000;
     geometry := (Dyadic (-581) (-3), Dyadic 298 (-3)) |}.

Definition springfield_large : place :=
  {| nameascii := "Springfield"; iso_a2 := "US"; pop_max := 170000;
     geometry := (Dyadic (-746) (-3), Dyadic 297 (-3)) |}.

Definition springfield_id : city_id_record :=
  {| name := "Springfield"; country := "US"; id := 7 |}.

(** The small data set served by the mocked world. *)
Definition demo : World := world places catalog server.

(** The same data set when the provider does not know London: the first
    request of a selection of two fails, the second succeeds. *)
Definition mixed : World :=
  world places catalog
    [(endpoint 1, ok_response "Clear" "clear sky" 5 1700000001);
     (endpoint 2, not_found);
     (endpoint 3, ok_response "Clear" "clear sky" 0 1700000003)].

Definition london_row : joined :=
  {| place_of := london;
     entry_of := {| name := "London"; country := "GB"; id := 2 |} |}.

Definition paris_row : joined := {| place_of := paris; entry_of := paris_id |}.

(** The datasets of the two maps of [select_cities(2, 'key')] in [demo]. *)
Definition demo_shown : list selected :=
  [{| row_of := london_row; weather := VStr "Rain";
      weather_description := VStr "Rain"; clouds := VInt 80 |};
   {| row_of := paris_row; weather := VStr "Clear";
      weather_description := VStr "Clear"; clouds := VInt 5 |}].

Definition demo_clear : list selected :=
  [{| row_of := paris_row; weather := VStr "Clear";
      weather_description := VStr "Clear"; clouds := VInt 5 |}].

(** A status 200 whose [weather] list is empty. *)
Definition empty_weather_response : response :=
  {| status_code := 200; text := EmptyString;
     json := Some (VDict [("weather", VList []);
                          ("clouds", VDict [("all", VInt 40)]);
                          ("dt", VInt 1700000000)]) |}.

(** A status 200 whose [dt] is a float. *)
Definition float_dt_response : response :=
  {| status_code := 200; text := EmptyString;
     json := Some (VDict [("weather", VList [VDict [("main", VStr "Clear")]]);
                          ("clouds", VDict [("all", VInt 5)]);
                          ("dt", VFloat (Dyadic 1700000000 0))]) |}.

(** The world of [world] on a machine without a display. *)
Definition headless (places : list place) (catalog : list city_id_record)
    (server : list (string * response)) : World :=
  {| gpd_read_file := fun _ => Ok places;
     pd_read_json := fun _ => Ok catalog;
     str_format := fun template n => Ok (fill_slot template (str_of_int n));
     requests_get := fun url =>
       match lookup server url with
       | Some r => Ok r
       | None => Raise (LibraryError "ConnectionError")
       end;
     int_of_str := int_of_digits;
     strftime_localtime := fun n => Ok (str_of_int n);
     draw_map := fun _ _ => Raise (LibraryError "no display") |}.

End Mock.

(** * Properties *)

(** ** The reference pandas satisfies the laws *)

Section ReferenceLaws.
Import Reference.

Lemma insert_desc_perm (p : place) (l : list place) :
  Permutation (insert_desc p l) (p :: l).
Proof.
  induction l as [|q rest IH]; simpl.
  - apply Permutation_refl.
  - destruct (pop_max q <? pop_max p).
    + apply Permutation_refl.
    + apply perm_trans with (q :: p :: rest).
      * apply perm_skip, IH.
      * apply perm_swap.
Qed.

Lemma sort_desc_perm (l : list place) : Permutation (sort_desc l) l.
Proof.
  induction l as [|p rest IH]; simpl.
  - apply perm_nil.
  - apply perm_trans with (p :: sort_desc rest).
    + apply insert_desc_perm.
    + apply perm_skip, IH.
Qed.

Lemma insert_desc_sorted (p : place) (l : list place) :
  StronglySorted (fun a b => pop_max b <= pop_max a) l ->
  StronglySorted (fun a b => pop_max b <= pop_max a) (insert_desc p l).
Proof.
  induction 1 as [|q rest Hrest IH Hq]; simpl.
  - constructor; constructor.
  - destruct (pop_max q <? pop_max p) eqn:Hlt.
    + apply Z.ltb_lt in Hlt.
      constructor; [constructor; assumption|].
      constructor; [lia|].
      eapply Forall_impl; [|exact Hq]. simpl. intros x Hx. lia.
    + apply Z.ltb_ge in Hlt.
      constructor; [exact IH|].
      apply (Permutation_Forall (Permutation_sym (insert_desc_perm p rest))).
      constructor; assumption.
Qed.

Lemma sort_desc_sorted (l : list place) :
  StronglySorted (fun a b => pop_max b <= pop_max a) (sort_desc l).
Proof.
  induction l as [|p rest IH]; simpl.
  - constructor.
  - apply insert_desc_sorted, IH.
Qed.

Lemma filter_map_const {A B} (f : A -> B) (q : B -> bool) (b : bool) (l : list A) :
  (forall a, q (f a) = b) ->
  filter q (map f l) = if b then map f l else [].
Proof.
  intros Hq. induction l as [|a rest IH]; simpl.
  - destruct b; reflexivity.
  - rewrite Hq, IH. destruct b; reflexivity.
Qed.

Lemma merge_left_by_key (l : list place) (r : list city_id_record) (k : string) :
  filter (key_is k) (merge_left l r) =
  flat_map (fun p => map (Build_joined p)
                         (filter (fun c => String.eqb (name c) k) r))
           (filter (fun p => String.eqb (nameascii p) k) l).
Proof.
  unfold merge_left.
  induction l as [|p rest IH]; simpl; [reflexivity|].
  rewrite filter_app, IH.
  rewrite (filter_map_const (Build_joined p) (key_is k)
             (String.eqb (nameascii p) k)) by reflexivity.
  destruct (String.eqb (nameascii p) k) eqn:Hk; simpl; [|reflexivity].
  apply String.eqb_eq in Hk. subst k. reflexivity.
Qed.

Lemma to_float_cell (v : value) : column_cell v (to_float v).
Proof.
  destruct v; try (left; reflexivity).
  - right. left. auto.
  - right. right. exists n, n, 0. repeat split.
    intros _. unfold represents. simpl. lia.
Qed.

Lemma infer_column_cells (l : list value) : Forall2 column_cell l (infer_column l).
Proof.
  unfold infer_column. destruct (float_column l).
  - induction l as [|v rest IH]; simpl; constructor;
      [apply to_float_cell | exact IH].
  - induction l as [|v rest IH]; constructor; [left; reflexivity | exact IH].
Qed.

End ReferenceLaws.

#[export] Instance reference_pandas : Pandas :=
  {| sort_values := Reference.sort_desc;
     merge := Reference.merge_left;
     to_column := Reference.infer_column;
     to_column_cells := infer_column_cells;
     sort_values_perm := sort_desc_perm;
     sort_values_desc := sort_desc_sorted;
     merge_by_key := merge_left_by_key |}.



(** ** Running computations *)

Lemma bind_Ok {A B} (m : M A) (f : A -> M B) (tr : list event) (b : B) :
  bind m f = (tr, Ok b) ->
  exists tr1 a tr2,
    m = (tr1, Ok a) /\ f a = (tr2, Ok b) /\ tr = (tr1 ++ tr2)%list.
Proof.
  unfold bind. destruct m as [tr1 [a|e]]; [|discriminate].
  destruct (f a) as [tr2 r] eqn:Hf. intros H. inversion H; subst.
  exists tr1, a, tr2. auto.
Qed.

Lemma bind_run {A B} (m : M A) (f : A -> M B) tr1 a tr2 (r : result B) :
  m = (tr1, Ok a) -> f a = (tr2, r) -> bind m f = ((tr1 ++ tr2)%list, r).
Proof. intros -> Hf. unfold bind. rewrite Hf. reflexivity. Qed.

Lemma bind_pair {A B} (tr : list event) (a : A) (f : A -> M B) :
  bind (tr, Ok a) f = ((tr ++ fst (f a))%list, snd (f a)).
Proof. unfold bind. destruct (f a). reflexivity. Qed.

Lemma bind_lift_Ok {A B} (a : A) (f : A -> M B) : bind (lift (Ok a)) f = f a.
Proof. unfold bind, lift. destruct (f a). reflexivity. Qed.

Lemma bind_Raise {A B} (m : M A) (f : A -> M B) tr e :
  m = (tr, Raise e) -> bind m f = (tr, Raise e).
Proof. intros ->. reflexivity. Qed.

Lemma for_each_app {S A} (body : S -> A -> M S) (l1 l2 : list A) (st : S) :
  for_each body st (l1 ++ l2) =
  bind (for_each body st l1) (fun st' => for_each body st' l2).
Proof.
  revert st. induction l1 as [|a rest IH]; intros st; simpl.
  - unfold bind, ret. destruct (for_each body st l2). reflexivity.
  - unfold bind at 1 3. destruct (body st a) as [tr [st'|e]]; [|reflexivity].
    rewrite IH. unfold bind.
    destruct (for_each body st' rest) as [tr1 [st1|e1]]; [|reflexivity].
    destruct (for_each body st1 l2) as [tr2 r2].
    rewrite app_assoc. reflexivity.
Qed.

Lemma for_each_snoc {S A} (body : S -> A -> M S) (l : list A) (a : A) (st : S) :
  for_each body st (l ++ [a]) =
  bind (for_each body st l) (fun st' => body st' a).
Proof.
  rewrite for_each_app. unfold bind.
  destruct (for_each body st l) as [tr [st'|e]]; [|reflexivity]. simpl.
  destruct (body st' a) as [tr1 [s1|e1]]; simpl;
    [rewrite app_nil_r|]; reflexivity.
Qed.

Section GetWeather.
Context {world : World}.

Lemma get_weather_body_Ok API_URL st city_id tr st' :
  get_weather_body API_URL st city_id = (tr, Ok st') ->
  exists main desc cov,
    answers API_URL city_id main desc cov /\
    weath_main st' = (weath_main st ++ [main])%list /\
    weath_desc st' = (weath_desc st ++ [desc])%list /\
    cloud_cov st' = (cloud_cov st ++ [cov])%list.
Proof.
  unfold get_weather_body, answers, observed. intros H.
  destruct (str_format API_URL city_id) as [url|] eqn:Hurl; [|discriminate].
  simpl in H.
  destruct (requests_get url) as [r|] eqn:Hr; [|discriminate]. simpl in H.
  unfold response_json in H.
  destruct (json r) as [j|] eqn:Hj; [|discriminate]. simpl in H.
  destruct (status_code r =? 200) eqn:Hs.
  - destruct (weather_0_main j) as [main|] eqn:Hm; [|discriminate]. simpl in H.
    destruct (clouds_all j) as [cov|] eqn:Hc; [|discriminate]. simpl in H.
    inversion H; subst; simpl.
    exists main, main, cov.
    split; [exists url, r, j; rewrite Hs; repeat split; auto | auto].
  - simpl in H. inversion H; subst; simpl.
    exists np_nan, np_nan, np_nan.
    split; [exists url, r, j; rewrite Hs; repeat split; auto | auto].
Qed.

(** A non-200 response whose body decodes: the diagnostic is printed, the
    marker is appended to the three lists, and the loop goes on. *)
Lemma get_weather_body_failed API_URL st city_id url r j :
  str_format API_URL city_id = Ok url -> requests_get url = Ok r ->
  json r = Some j -> status_code r <> 200 ->
  get_weather_body API_URL st city_id =
  (diagnostic city_id r,
   Ok {| weath_main := (weath_main st ++ [np_nan])%list;
         weath_desc := (weath_desc st ++ [np_nan])%list;
         cloud_cov := (cloud_cov st ++ [np_nan])%list;
         resp_j := Some j |}).
Proof.
  intros Hurl Hr Hj Hs. unfold get_weather_body, response_json.
  rewrite Hurl. simpl. rewrite Hr. simpl. rewrite Hj. simpl.
  apply Z.eqb_neq in Hs. rewrite Hs. reflexivity.
Qed.

(** A body that does not decode ends the iteration before the status is
    looked at. *)
Lemma get_weather_body_undecodable API_URL st city_id url r :
  str_format API_URL city_id = Ok url -> requests_get url = Ok r ->
  json r = None ->
  get_weather_body API_URL st city_id = ([], Raise JSONDecodeError).
Proof.
  intros Hurl Hr Hj. unfold get_weather_body, response_json.
  rewrite Hurl. simpl. rewrite Hr. simpl. rewrite Hj. reflexivity.
Qed.

Lemma for_each_aligned API_URL ids : forall st tr st',
  for_each (get_weather_body API_URL) st ids = (tr, Ok st') ->
  exists mains descs covs,
    aligned API_URL ids mains descs covs /\
    weath_main st' = (weath_main st ++ mains)%list /\
    weath_desc st' = (weath_desc st ++ descs)%list /\
    cloud_cov st' = (cloud_cov st ++ covs)%list.
Proof.
  induction ids as [|city_id rest IH]; intros st tr st' H; simpl in H.
  - inversion H; subst. exists [], [], []. rewrite !app_nil_r.
    split; [constructor|auto].
  - apply bind_Ok in H. destruct H as (tr1 & st1 & tr2 & Hbody & Hrest & _).
    apply get_weather_body_Ok in Hbody.
    destruct Hbody as (main & desc & cov & Hans & Hm & Hd & Hc).
    apply IH in Hrest.
    destruct Hrest as (mains & descs & covs & Hal & Hm' & Hd' & Hc').
    exists (main :: mains), (desc :: descs), (cov :: covs).
    rewrite Hm', Hd', Hc', Hm, Hd, Hc, <- !app_assoc. simpl.
    split; [constructor; assumption | auto].
Qed.

Lemma aligned_length API_URL ids mains descs covs :
  aligned API_URL ids mains descs covs ->
  length mains = length ids /\ length descs = length ids /\
  length covs = length ids.
Proof.
  induction 1 as [|? ? ? ? ? ? ? ? _ _ (IH1 & IH2 & IH3)]; simpl; auto.
Qed.

Lemma aligned_nth API_URL ids mains descs covs :
  aligned API_URL ids mains descs covs ->
  forall i city_id, nth_error ids i = Some city_id ->
  exists main desc cov,
    nth_error mains i = Some main /\ nth_error descs i = Some desc /\
    nth_error covs i = Some cov /\ answers API_URL city_id main desc cov.
Proof.
  induction 1 as [|c ids main mains desc descs cov covs Hans _ IH];
    intros i city_id Hi.
  - destruct i; discriminate.
  - destruct i as [|i]; simpl in *.
    + inversion Hi; subst. exists main, desc, cov. auto.
    + apply IH, Hi.
Qed.

Lemma aligned_desc_main API_URL ids mains descs covs :
  aligned API_URL ids mains descs covs -> descs = mains.
Proof.
  induction 1 as [|c ids main mains desc descs cov covs Hans _ IH].
  - reflexivity.
  - subst descs. f_equal.
    destruct Hans as (url & r & j & _ & _ & _ & Hobs). unfold observed in Hobs.
    destruct (status_code r =? 200).
    + destruct Hobs as (Hm & Hd & _). congruence.
    + destruct Hobs as (Hm & Hd & _). congruence.
Qed.

Lemma get_weather_Ok API_URL id_list tr covs descs mains dt :
  get_weather API_URL id_list = (tr, Ok (covs, descs, mains, dt)) ->
  aligned API_URL id_list mains descs covs.
Proof.
  unfold get_weather. intros H. apply bind_Ok in H.
  destruct H as (tr1 & st & tr2 & Hloop & Hret & _).
  apply for_each_aligned in Hloop.
  destruct Hloop as (mains' & descs' & covs' & Hal & Hm & Hd & Hc).
  simpl in Hm, Hd, Hc. unfold get_weather_return in Hret.
  destruct (resp_j st) as [j|]; [|discriminate].
  apply bind_Ok in Hret. destruct Hret as (? & dt' & ? & _ & Hret & _).
  inversion Hret; subst. exact Hal.
Qed.

End GetWeather.

(** ** get_weather *)

Section GetWeatherProperties.
Context {world : World}.

(** An identifier that is answered: the iteration ends and appends. *)
Lemma get_weather_body_answered API_URL st city_id url r j main desc cov :
  str_format API_URL city_id = Ok url ->
  requests_get url = Ok r ->
  json r = Some j ->
  observed r j main desc cov ->
  exists tr,
    get_weather_body API_URL st city_id =
    (tr, Ok {| weath_main := (weath_main st ++ [main])%list;
               weath_desc := (weath_desc st ++ [desc])%list;
               cloud_cov := (cloud_cov st ++ [cov])%list;
               resp_j := Some j |}).
Proof.
  intros Hurl Hr Hj Hobs. unfold get_weather_body, response_json, observed in *.
  rewrite Hurl. simpl. rewrite Hr. simpl. rewrite Hj. simpl.
  destruct (status_code r =? 200).
  - destruct Hobs as (Hm & Hd & Hc). rewrite Hm. simpl. rewrite Hc. simpl.
    assert (main = desc) by congruence. subst desc.
    eexists. reflexivity.
  - destruct Hobs as (-> & -> & ->). simpl. eexists. reflexivity.
Qed.

(** The converse of [for_each_aligned]: when every identifier is answered,
    the loop ends and has appended the answers. *)
Lemma for_each_answered API_URL ids mains descs covs :
  aligned API_URL ids mains descs covs ->
  forall st, exists tr st',
    for_each (get_weather_body API_URL) st ids = (tr, Ok st') /\
    weath_main st' = (weath_main st ++ mains)%list /\
    weath_desc st' = (weath_desc st ++ descs)%list /\
    cloud_cov st' = (cloud_cov st ++ covs)%list.
Proof.
  induction 1 as [|c ids main mains desc descs cov covs Hans _ IH]; intros st.
  - exists [], st. simpl. rewrite !app_nil_r. auto.
  - destruct Hans as (url & r & j & Hurl & Hr & Hj & Hobs).
    destruct (get_weather_body_answered API_URL st c url r j main desc cov
                Hurl Hr Hj Hobs) as (tr1 & Hbody).
    destruct (IH {| weath_main := (weath_main st ++ [main])%list;
                    weath_desc := (weath_desc st ++ [desc])%list;
                    cloud_cov := (cloud_cov st ++ [cov])%list;
                    resp_j := Some j |})
      as (tr2 & st2 & Hrest & Hm2 & Hd2 & Hc2).
    exists (tr1 ++ tr2)%list, st2. simpl.
    split; [eapply bind_run; eassumption|].
    rewrite Hm2, Hd2, Hc2. simpl. rewrite <- !app_assoc. auto.
Qed.

(** [get_weather] does return: when every identifier is answered and the
    body of the last response holds a [dt], the result is the three lists of
    the answers and that [dt]. *)
Lemma get_weather_returns
    API_URL pre last mains descs covs url r j main desc cov dt :
  aligned API_URL pre mains descs covs ->
  str_format API_URL last = Ok url ->
  requests_get url = Ok r ->
  json r = Some j ->
  observed r j main desc cov ->
  getitem_str j "dt" = Ok dt ->
  exists tr,
    get_weather API_URL (pre ++ [last]) =
    (tr, Ok ((covs ++ [cov])%list, (descs ++ [desc])%list,
             (mains ++ [main])%list, dt)).
Proof.
  intros Hpre Hurl Hr Hj Hobs Hdt.
  destruct (for_each_answered _ _ _ _ _ Hpre loop_init)
    as (tr1 & st1 & Hloop & Hm & Hd & Hc).
  destruct (get_weather_body_answered API_URL st1 last url r j main desc cov
              Hurl Hr Hj Hobs) as (tr2 & Hbody).
  exists (tr1 ++ tr2)%list. unfold get_weather.
  rewrite for_each_snoc, (bind_run _ _ _ _ _ _ Hloop Hbody), bind_pair.
  unfold get_weather_return.
  cbn [resp_j cloud_cov weath_desc weath_main].
  rewrite Hdt, bind_lift_Ok, Hm, Hd, Hc. simpl. rewrite app_nil_r. reflexivity.
Qed.

(** C2. Whenever [get_weather] returns for a non-empty list of identifiers,
    each of the three lists it returns (cloud cover, description, main
    category) has the length of the list of identifiers, and the entries at
    position [i] are the ones the response to the request for the [i]-th
    identifier gives. *)
Theorem get_weather_aligned API_URL id_list tr covs descs mains dt :
  id_list <> [] ->
  get_weather API_URL id_list = (tr, Ok (covs, descs, mains, dt)) ->
  length covs = length id_list /\
  length descs = length id_list /\
  length mains = length id_list /\
  forall i city_id, nth_error id_list i = Some city_id ->
    exists main desc cov,
      nth_error mains i = Some main /\ nth_error descs i = Some desc /\
      nth_error covs i = Some cov /\ answers API_URL city_id main desc cov.
Proof.
  intros _ H. apply get_weather_Ok in H.
  destruct (aligned_length _ _ _ _ _ H) as (Hm & Hd & Hc).
  repeat (split; [assumption|]).
  exact (aligned_nth _ _ _ _ _ H).
Qed.

(** C8. Whenever [get_weather] returns, the list of descriptions is the
    list of main categories, entry by entry: both are read from
    [resp_j['weather'][0]['main']] on success and both get the marker on
    failure. *)
Theorem get_weather_desc_is_main API_URL id_list tr covs descs mains dt :
  get_weather API_URL id_list = (tr, Ok (covs, descs, mains, dt)) ->
  descs = mains.
Proof.
  intros H. apply get_weather_Ok in H. exact (aligned_desc_main _ _ _ _ _ H).
Qed.

(** C10. The body of every response is decoded before its status is
    looked at: once the requests before it are processed, a response (of any
    status, a non-200 one too) whose body is not valid JSON ends the whole
    batch with the decoding error, whatever identifiers come after it; no
    diagnostic is printed for it and nothing is returned. *)
Theorem get_weather_undecodable_body_aborts API_URL pre city_id post tr st url r :
  for_each (get_weather_body API_URL) loop_init pre = (tr, Ok st) ->
  str_format API_URL city_id = Ok url ->
  requests_get url = Ok r ->
  json r = None ->
  get_weather API_URL (pre ++ city_id :: post) = (tr, Raise JSONDecodeError).
Proof.
  intros Hpre Hurl Hr Hj. unfold get_weather.
  apply bind_Raise. rewrite for_each_app.
  rewrite <- (app_nil_r tr). apply bind_run with st; [exact Hpre|].
  simpl. apply bind_Raise.
  apply get_weather_body_undecodable with url r; assumption.
Qed.

(** The last request of a batch fails with a body that decodes. *)
Lemma get_weather_last_failed API_URL pre last tr st url r j :
  for_each (get_weather_body API_URL) loop_init pre = (tr, Ok st) ->
  str_format API_URL last = Ok url ->
  requests_get url = Ok r ->
  json r = Some j ->
  status_code r <> 200 ->
  get_weather API_URL (pre ++ [last]) =
  bind ((tr ++ diagnostic last r)%list,
        Ok {| weath_main := (weath_main st ++ [np_nan])%list;
              weath_desc := (weath_desc st ++ [np_nan])%list;
              cloud_cov := (cloud_cov st ++ [np_nan])%list;
              resp_j := Some j |})
       get_weather_return.
Proof.
  intros Hpre Hurl Hr Hj Hs. unfold get_weather.
  rewrite for_each_snoc.
  rewrite (bind_run _ _ _ _ _ _ Hpre
             (get_weather_body_failed API_URL st last url r j Hurl Hr Hj Hs)).
  reflexivity.
Qed.

(** C4, as the code has it.  When the last request of a batch fails with a
    non-200 status and a body that decodes to an object with a [dt] entry,
    [get_weather] returns that [dt]: the value of the last response itself,
    not the one of an earlier successful response. *)
Theorem get_weather_timestamp_of_last_response
    API_URL pre last tr st url r j dt :
  for_each (get_weather_body API_URL) loop_init pre = (tr, Ok st) ->
  str_format API_URL last = Ok url ->
  requests_get url = Ok r ->
  json r = Some j ->
  status_code r <> 200 ->
  getitem_str j "dt" = Ok dt ->
  get_weather API_URL (pre ++ [last]) =
  ((tr ++ diagnostic last r)%list,
   Ok ((cloud_cov st ++ [np_nan])%list, (weath_desc st ++ [np_nan])%list,
       (weath_main st ++ [np_nan])%list, dt)).
Proof.
  intros Hpre Hurl Hr Hj Hs Hdt.
  rewrite (get_weather_last_failed API_URL pre last tr st url r j
             Hpre Hurl Hr Hj Hs).
  unfold bind, get_weather_return. simpl. rewrite Hdt. simpl.
  rewrite app_nil_r. reflexivity.
Qed.

End GetWeatherProperties.

(** Witness of C2: a batch of two, the second of which is answered with
    status 500 and a body that holds a [dt]. *)
Lemma get_weather_aligned_witness :
  let w := Mock.world [] []
             [(Mock.endpoint 1, Mock.ok_response "Clear" "clear sky" 5 1700000000);
              (Mock.endpoint 2, Mock.server_error_with_dt 1700000007)] in
  exists tr covs descs mains dt,
    @get_weather w Mock.api_url [1; 2] = (tr, Ok (covs, descs, mains, dt)) /\
    length covs = 2%nat /\ length descs = 2%nat /\ length mains = 2%nat /\
    forall i city_id, nth_error [1; 2] i = Some city_id ->
      exists main desc cov,
        nth_error mains i = Some main /\ nth_error descs i = Some desc /\
        nth_error covs i = Some cov /\
        @answers w Mock.api_url city_id main desc cov.
Proof.
  intros w.
  exists (@diagnostic 2 (Mock.server_error_with_dt 1700000007)),
         [VInt 5; np_nan], [VStr "Clear"; np_nan], [VStr "Clear"; np_nan],
         (VInt 1700000007).
  split; [vm_compute; reflexivity|].
  apply (@get_weather_aligned w Mock.api_url [1; 2]
           (@diagnostic 2 (Mock.server_error_with_dt 1700000007))
           [VInt 5; np_nan] [VStr "Clear"; np_nan] [VStr "Clear"; np_nan]
           (VInt 1700000007)).
  - discriminate.
  - vm_compute; reflexivity.
Defined.

(** Witness of C8. *)
Lemma get_weather_desc_is_main_witness :
  [VStr "Clear"; np_nan] = [VStr "Clear"; np_nan].
Proof.
  apply (@get_weather_desc_is_main
           (Mock.world [] []
              [(Mock.endpoint 1, Mock.ok_response "Clear" "clear sky" 5 1700000000);
               (Mock.endpoint 2, Mock.server_error_with_dt 1700000007)])
           Mock.api_url [1; 2]
           (@diagnostic 2 (Mock.server_error_with_dt 1700000007))
           [VInt 5; np_nan] [VStr "Clear"; np_nan] [VStr "Clear"; np_nan]
           (VInt 1700000007)).
  vm_compute; reflexivity.
Defined.

(** Witness of C10: the gateway answers the second of three requests with
    status 502 and a page. *)
Lemma get_weather_undecodable_body_aborts_witness :
  let w := Mock.world [] []
             [(Mock.endpoint 1, Mock.ok_response "Clear" "clear sky" 5 1700000000);
              (Mock.endpoint 2, Mock.bad_gateway);
              (Mock.endpoint 3, Mock.ok_response "Rain" "light rain" 80 1700000003)] in
  status_code Mock.bad_gateway <> 200 /\
  @get_weather w Mock.api_url [1; 2; 3] = ([], Raise JSONDecodeError).
Proof.
  intros w. split; [discriminate|].
  apply (@get_weather_undecodable_body_aborts w Mock.api_url [1] 2 [3] []
           {| weath_main := [VStr "Clear"]; weath_desc := [VStr "Clear"];
              cloud_cov := [VInt 5];
              resp_j := Some (Mock.observation "Clear" "clear sky" 5 1700000000) |}
           (Mock.endpoint 2) Mock.bad_gateway);
    vm_compute; reflexivity.
Defined.

(** C3, at a request the code does not recover.  The first of two requests
    is answered with status 502 and a body that is not JSON: nothing is
    printed, no list with a marker is returned, the good answer to the second
    identifier plays no part; the call ends with the decoding error. *)
Theorem get_weather_bad_gateway_not_recovered :
  @get_weather
    (Mock.world [] []
       [(Mock.endpoint 1, Mock.bad_gateway);
        (Mock.endpoint 2, Mock.ok_response "Clear" "clear sky" 5 1700000000)])
    Mock.api_url [1; 2]
  = ([], Raise JSONDecodeError).
Proof. vm_compute; reflexivity. Qed.

(** C4 fails as stated.  The first request succeeds with [dt = 1700000000]
    and the last one is answered 404 by the provider: no timestamp is
    returned at all, the call ends with [KeyError('dt')].  And when the
    failed response does carry a [dt], that one is returned. *)
Lemma get_weather_timestamp_not_of_previous_success :
  (let w := Mock.world [] []
              [(Mock.endpoint 1, Mock.ok_response "Clear" "clear sky" 5 1700000000);
               (Mock.endpoint 2, Mock.not_found)] in
   status_code Mock.not_found <> 200 /\
   ~ exists tr covs descs mains,
       @get_weather w Mock.api_url [1; 2] =
       (tr, Ok (covs, descs, mains, VInt 1700000000))) /\
  (let w := Mock.world [] []
              [(Mock.endpoint 1, Mock.ok_response "Clear" "clear sky" 5 1700000000);
               (Mock.endpoint 2, Mock.server_error_with_dt 7)] in
   status_code (Mock.server_error_with_dt 7) <> 200 /\
   ~ exists tr covs descs mains,
       @get_weather w Mock.api_url [1; 2] =
       (tr, Ok (covs, descs, mains, VInt 1700000000))).
Proof.
  split; (split; [discriminate|]);
    intros (tr & covs & descs & mains & H); vm_compute in H; discriminate H.
Qed.

(** Witness of the amended C4. *)
Lemma get_weather_timestamp_of_last_response_witness :
  let w := Mock.world [] []
             [(Mock.endpoint 1, Mock.ok_response "Clear" "clear sky" 5 1700000000);
              (Mock.endpoint 2, Mock.server_error_with_dt 7)] in
  @get_weather w Mock.api_url ([1] ++ [2]) =
  (([] ++ @diagnostic 2 (Mock.server_error_with_dt 7))%list,
   Ok ([VInt 5; np_nan], [VStr "Clear"; np_nan], [VStr "Clear"; np_nan], VInt 7)).
Proof.
  intros w.
  apply (@get_weather_timestamp_of_last_response w Mock.api_url [1] 2 []
           {| weath_main := [VStr "Clear"]; weath_desc := [VStr "Clear"];
              cloud_cov := [VInt 5];
              resp_j := Some (Mock.observation "Clear" "clear sky" 5 1700000000) |}
           (Mock.endpoint 2) (Mock.server_error_with_dt 7)
           (VDict [("cod", VStr "500"); ("dt", VInt 7)]) (VInt 7));
    try (vm_compute; reflexivity).
  discriminate.
Defined.

(** ** The list steps of select_cities *)

Lemma slice_to_length {A} (rows : list A) (stop : Z) :
  0 <= stop -> Z.of_nat (length (slice_to rows stop)) <= stop.
Proof.
  intros Hstop. unfold slice_to.
  destruct (stop <? 0) eqn:Hneg; [apply Z.ltb_lt in Hneg; lia|].
  rewrite length_firstn. lia.
Qed.

Lemma slice_to_incl {A} (rows : list A) (stop : Z) (a : A) :
  In a (slice_to rows stop) -> In a rows.
Proof.
  unfold slice_to. intros H.
  rewrite <- (firstn_skipn (Z.to_nat (if stop <? 0
                                      then Z.max (Z.of_nat (length rows) + stop) 0
                                      else Z.min stop (Z.of_nat (length rows))))
                rows).
  apply in_or_app. left. exact H.
Qed.

Lemma drop_duplicates_from_incl (rows : list joined) : forall seen r,
  In r (drop_duplicates_from seen rows) -> In r rows.
Proof.
  induction rows as [|a rest IH]; intros seen r; simpl; [auto|].
  destruct (existsb (String.eqb (nameascii (place_of a))) seen).
  - intros H. right. exact (IH _ _ H).
  - intros [H|H]; [left; exact H | right; exact (IH _ _ H)].
Qed.

Lemma country_match_In (rows : list joined) (r : joined) :
  In r (country_match rows) <->
  In r rows /\ iso_a2 (place_of r) = country (entry_of r).
Proof.
  unfold country_match. rewrite filter_In, String.eqb_eq. reflexivity.
Qed.

Lemma to_column_length {pandas : Pandas} (l : list value) :
  length (to_column l) = length l.
Proof. symmetry. exact (Forall2_length (to_column_cells l)). Qed.

Lemma combined_rows : forall (rows : list joined) (main desc cov : list value),
  length main = length rows -> length desc = length rows ->
  length cov = length rows ->
  map row_of
      (map (fun x => match x with
                     | (r, m, d, c) =>
                         {| row_of := r; weather := m;
                            weather_description := d; clouds := c |}
                     end)
           (combine (combine (combine rows main) desc) cov)) = rows.
Proof.
  induction rows as [|r rest IH]; intros main desc cov Hm Hd Hc.
  - reflexivity.
  - destruct main as [|m main]; [discriminate|].
    destruct desc as [|d desc]; [discriminate|].
    destruct cov as [|c cov]; [discriminate|].
    simpl in *. f_equal. apply IH; congruence.
Qed.

Lemma assign_weather_rows {pandas : Pandas} : forall rows main desc cov sel,
  assign_weather rows main desc cov = Ok sel -> map row_of sel = rows.
Proof.
  unfold assign_weather. intros rows main desc cov sel.
  destruct ((length main =? length rows)%nat && (length desc =? length rows)%nat
            && (length cov =? length rows)%nat)%bool eqn:Hlen; [|discriminate].
  apply andb_prop in Hlen. destruct Hlen as [Hlen Hc].
  apply andb_prop in Hlen. destruct Hlen as [Hm Hd].
  apply Nat.eqb_eq in Hm, Hd, Hc.
  intros H. inversion H; subst sel. clear H.
  apply combined_rows; rewrite to_column_length; assumption.
Qed.

Lemma fillna_rows (rows : list selected) : map row_of (fillna rows) = map row_of rows.
Proof. unfold fillna. rewrite map_map. reflexivity. Qed.

Lemma is_clear_true (v : value) : is_clear v = true -> v = VStr "Clear".
Proof.
  destruct v; simpl; try discriminate.
  intros H. apply String.eqb_eq in H. subst. reflexivity.
Qed.

Lemma Forall_row_of (P : joined -> Prop) (rows : list selected) :
  Forall P (map row_of rows) -> Forall (fun r => P (row_of r)) rows.
Proof. rewrite Forall_map. auto. Qed.

(** ** Traces *)

Lemma bind_trace {A B} (P : event -> Prop) (m : M A) (f : A -> M B) :
  Forall P (fst m) ->
  (forall a, snd m = Ok a -> Forall P (fst (f a))) ->
  Forall P (fst (bind m f)).
Proof.
  destruct m as [tr [a|e]]; simpl; intros Hm Hf; [|exact Hm].
  specialize (Hf a eq_refl). destruct (f a) as [tr' r]. simpl in *.
  apply Forall_app. auto.
Qed.

Lemma bind_snd_Ok {A B} (m : M A) (f : A -> M B) (b : B) :
  snd (bind m f) = Ok b -> exists a, snd m = Ok a /\ snd (f a) = Ok b.
Proof.
  destruct m as [tr [a|e]]; simpl; [|discriminate].
  destruct (f a) as [tr' r] eqn:Hf. simpl. intros ->. exists a.
  rewrite Hf. auto.
Qed.

Section SelectCitiesProperties.
Context {world : World} {pandas : Pandas}.

Lemma get_weather_body_prints API_URL st city_id :
  Forall printed (fst (get_weather_body API_URL st city_id)).
Proof.
  unfold get_weather_body.
  apply bind_trace; [constructor|]. intros url _.
  apply bind_trace; [constructor|]. intros r _.
  apply bind_trace; [constructor|]. intros j _.
  destruct (status_code r =? 200).
  - apply bind_trace; [constructor|]. intros main _.
    apply bind_trace; [constructor|]. intros desc _.
    apply bind_trace; [constructor|]. intros cov _. constructor.
  - apply bind_trace; [repeat constructor; eexists; reflexivity|]. intros _ _.
    apply bind_trace; [repeat constructor; eexists; reflexivity|]. intros _ _.
    constructor.
Qed.

Lemma get_weather_prints API_URL id_list :
  Forall printed (fst (get_weather API_URL id_list)).
Proof.
  unfold get_weather. apply bind_trace.
  - generalize loop_init.
    induction id_list as [|c rest IH]; intros st; simpl; [constructor|].
    apply bind_trace; [apply get_weather_body_prints|]. intros st' _. apply IH.
  - intros st _. unfold get_weather_return.
    destruct (resp_j st); [|constructor].
    apply bind_trace; [constructor|]. intros dt _. constructor.
Qed.

Lemma plot_on_map_shows (P : selected -> Prop) dataset title :
  Forall P dataset -> Forall (shows P) (fst (plot_on_map dataset title)).
Proof.
  intros H. unfold plot_on_map.
  apply bind_trace; [constructor|]. intros _ _. simpl.
  constructor; [exact H | constructor].
Qed.

Lemma printed_shows (P : selected -> Prop) (tr : list event) :
  Forall printed tr -> Forall (shows P) tr.
Proof.
  apply Forall_impl. intros e [line ->]. exact I.
Qed.

(** The rows of the selection, with their weather columns, all come from
    the rows that passed the comparison of the country codes. *)
Lemma selection_codes_match cities_data cities_id selection main desc cov rows :
  assign_weather
    (slice_to (drop_duplicates
                 (country_match (merge (sort_values cities_data) cities_id)))
              selection) main desc cov = Ok rows ->
  Forall codes_match (fillna rows).
Proof.
  intros H. apply assign_weather_rows in H.
  apply Forall_row_of with (P := fun r => iso_a2 (place_of r) = country (entry_of r)).
  rewrite fillna_rows, H. apply Forall_forall. intros r Hr.
  apply slice_to_incl in Hr. apply drop_duplicates_from_incl in Hr.
  apply country_match_In in Hr. apply Hr.
Qed.

Lemma Forall_filter {A} (P : A -> Prop) (f : A -> bool) (l : list A) :
  Forall P l -> Forall P (filter f l).
Proof.
  rewrite !Forall_forall. intros H a Ha. apply filter_In in Ha. apply H, Ha.
Qed.

Lemma select_cities_trace selection appid :
  Forall (shows codes_match) (fst (select_cities selection appid)).
Proof.
  unfold select_cities. cbv zeta.
  apply bind_trace; [constructor|]. intros cities_data _.
  apply bind_trace; [constructor|]. intros cities_id _.
  apply bind_trace; [apply printed_shows, get_weather_prints|].
  intros [[[covs descs] mains] dt] _.
  apply bind_trace; [constructor|]. intros seconds _.
  apply bind_trace; [constructor|]. intros timestr _.
  apply bind_trace; [constructor|]. intros rows Hrows. simpl in Hrows.
  apply selection_codes_match in Hrows.
  apply bind_trace; [apply plot_on_map_shows, Hrows|]. intros _ _.
  apply bind_trace; [apply plot_on_map_shows, Forall_filter, Hrows|].
  intros _ _. constructor.
Qed.

(** A run of [select_cities] that returns a table. *)
Lemma select_cities_Ok selection appid table :
  snd (select_cities selection appid) = Ok table ->
  exists cities_data cities_id covs descs mains dt rows,
    let sel_dataset :=
      slice_to (drop_duplicates
                  (country_match (merge (sort_values cities_data) cities_id)))
               selection in
    gpd_read_file "data_populated_places/ne_10m_populated_places_simple.shp"
      = Ok cities_data /\
    pd_read_json "data_populated_places/city.list.json" = Ok cities_id /\
    snd (get_weather
           ("http://api.openweathermap.org/data/2.5/weather?id={}&APPID=" ++ appid)
           (map (fun r => id (entry_of r)) sel_dataset))
      = Ok (covs, descs, mains, dt) /\
    assign_weather sel_dataset mains descs covs = Ok rows /\
    table = project (filter (fun r => is_clear (weather r)) (fillna rows)).
Proof.
  unfold select_cities. cbv zeta. intros H.
  apply bind_snd_Ok in H. destruct H as (cities_data & Hdata & H).
  apply bind_snd_Ok in H. destruct H as (cities_id & Hid & H).
  apply bind_snd_Ok in H. destruct H as ([[[covs descs] mains] dt] & Hw & H).
  apply bind_snd_Ok in H. destruct H as (seconds & _ & H).
  apply bind_snd_Ok in H. destruct H as (timestr & _ & H).
  apply bind_snd_Ok in H. destruct H as (rows & Hrows & H).
  apply bind_snd_Ok in H. destruct H as (? & _ & H).
  apply bind_snd_Ok in H. destruct H as (? & _ & H).
  simpl in Hdata, Hid, Hrows, H. inversion H; subst table.
  exists cities_data, cities_id, covs, descs, mains, dt, rows.
  cbv zeta. auto 10.
Qed.

(** C9. With an empty list of identifiers [get_weather] returns nothing:
    [resp_j] is read unbound and the call ends with UnboundLocalError.  So
    does [select_cities] when its selection is empty: it does not return an
    empty table. *)
Theorem get_weather_empty_fails :
  (forall API_URL,
      get_weather API_URL [] = ([], Raise (UnboundLocalError "resp_j"))) /\
  (forall selection appid cities_data cities_id,
      gpd_read_file "data_populated_places/ne_10m_populated_places_simple.shp"
        = Ok cities_data ->
      pd_read_json "data_populated_places/city.list.json" = Ok cities_id ->
      slice_to (drop_duplicates
                  (country_match (merge (sort_values cities_data) cities_id)))
               selection = [] ->
      select_cities selection appid = ([], Raise (UnboundLocalError "resp_j"))).
Proof.
  split; [reflexivity|].
  intros selection appid cities_data cities_id Hdata Hid Hsel.
  unfold select_cities. cbv zeta. rewrite Hdata, Hid. simpl.
  rewrite Hsel. reflexivity.
Qed.

(** ** Deduplication *)

(** Of the rows of one name, [drop_duplicates] keeps the first. *)
Lemma drop_duplicates_from_by_key (k : string) (rows : list joined) :
  forall seen,
    filter (key_is k) (drop_duplicates_from seen rows) =
    if existsb (String.eqb k) seen then [] else firstn 1 (filter (key_is k) rows).
Proof.
  induction rows as [|r rest IH]; intros seen; simpl.
  - destruct (existsb (String.eqb k) seen); reflexivity.
  - unfold key_is at 2.
    destruct (String.eqb (nameascii (place_of r)) k) eqn:Hk.
    + apply String.eqb_eq in Hk. subst k.
      destruct (existsb (String.eqb (nameascii (place_of r))) seen) eqn:Hseen.
      * rewrite IH, Hseen. reflexivity.
      * simpl. unfold key_is at 1. rewrite String.eqb_refl.
        rewrite IH. simpl. rewrite String.eqb_refl. reflexivity.
    + destruct (existsb (String.eqb (nameascii (place_of r))) seen) eqn:Hseen.
      * apply IH.
      * simpl. unfold key_is at 1. rewrite Hk. rewrite IH. simpl.
        rewrite (String.eqb_sym k), Hk. reflexivity.
Qed.

Lemma filter_comm {A} (f g : A -> bool) (l : list A) :
  filter f (filter g l) = filter g (filter f l).
Proof.
  induction l as [|a rest IH]; simpl; [reflexivity|].
  destruct (g a) eqn:Hg, (f a) eqn:Hf; simpl; rewrite ?Hg, ?Hf, IH; reflexivity.
Qed.

Lemma StronglySorted_filter {A} (R : A -> A -> Prop) (f : A -> bool) (l : list A) :
  StronglySorted R l -> StronglySorted R (filter f l).
Proof.
  induction 1 as [|a rest Hrest IH Ha]; simpl; [constructor|].
  destruct (f a); [|exact IH].
  constructor; [exact IH | apply Forall_filter, Ha].
Qed.

(** In the join of a list of places sorted by descending population with
    the catalog rows of one name, the first row that passes a filter has the
    largest population of the rows that pass it. *)
Lemma sorted_join_head (entries : list city_id_record) (q : joined -> bool)
    (places : list place) :
  StronglySorted (fun a b => pop_max b <= pop_max a) places ->
  forall x rest,
    filter q (flat_map (fun p => map (Build_joined p) entries) places) = x :: rest ->
    Forall (fun y => pop_max (place_of y) <= pop_max (place_of x)) (x :: rest).
Proof.
  induction 1 as [|p places Hsorted IH Hp]; intros x rest Hx; simpl in Hx.
  - discriminate.
  - rewrite filter_app in Hx.
    assert (Hhere : Forall (fun y => place_of y = p)
                           (filter q (map (Build_joined p) entries))).
    { apply Forall_filter, Forall_map, Forall_forall. reflexivity. }
    assert (Hlater : Forall (fun y => pop_max (place_of y) <= pop_max p)
                       (filter q (flat_map (fun p => map (Build_joined p) entries)
                                           places))).
    { apply Forall_filter, Forall_forall. intros y Hy.
      apply in_flat_map in Hy. destruct Hy as (p' & Hp' & Hy).
      apply in_map_iff in Hy. destruct Hy as (c & <- & _). simpl.
      rewrite Forall_forall in Hp. apply Hp, Hp'. }
    destruct (filter q (map (Build_joined p) entries)) as [|a here] eqn:Hfilter.
    + simpl in Hx. apply IH, Hx.
    + simpl in Hx. inversion Hx; subst a rest. clear Hx.
      inversion Hhere as [|? ? Hxp Hhere']; subst.
      constructor; [lia|]. apply Forall_app. split.
      * eapply Forall_impl; [|exact Hhere']. simpl. intros y ->. lia.
      * exact Hlater.
Qed.

(** The rows of one name that pass the comparison of the country codes. *)
Lemma full_dataset_by_key cities_data cities_id k :
  filter (key_is k) (country_match (merge (sort_values cities_data) cities_id)) =
  country_match
    (flat_map (fun p => map (Build_joined p)
                            (filter (fun c => String.eqb (name c) k) cities_id))
              (filter (fun p => String.eqb (nameascii p) k)
                      (sort_values cities_data))).
Proof.
  unfold country_match. rewrite filter_comm, merge_by_key. reflexivity.
Qed.

(** C5. Two rows of the same name pass the join and the comparison of the
    country codes, the place record of the first with the larger
    [pop_max].  Then the deduplicated table has exactly one row of that name;
    it is not the row of smaller population, which is dropped; its population
    is the largest of the surviving rows of the name; and it is a row of the
    place record of larger population when these two records are the only
    ones of the name that survive. *)
Theorem drop_duplicates_keeps_higher_pop_max cities_data cities_id r1 r2 :
  let full_dataset :=
    country_match (merge (sort_values cities_data) cities_id) in
  In r1 full_dataset ->
  In r2 full_dataset ->
  nameascii (place_of r1) = nameascii (place_of r2) ->
  pop_max (place_of r2) < pop_max (place_of r1) ->
  exists kept,
    filter (key_is (nameascii (place_of r1))) (drop_duplicates full_dataset)
      = [kept] /\
    In kept full_dataset /\
    ~ In r2 (drop_duplicates full_dataset) /\
    (forall r, In r full_dataset ->
               nameascii (place_of r) = nameascii (place_of r1) ->
               pop_max (place_of r) <= pop_max (place_of kept)) /\
    ((forall r, In r full_dataset ->
                nameascii (place_of r) = nameascii (place_of r1) ->
                place_of r = place_of r1 \/ place_of r = place_of r2) ->
     place_of kept = place_of r1).
Proof.
  intros full_dataset H1 H2 Hname Hpop.
  set (k := nameascii (place_of r1)) in *.
  assert (Hkey : forall r, In r (filter (key_is k) full_dataset) <->
                           In r full_dataset /\ nameascii (place_of r) = k).
  { intros r. rewrite filter_In. unfold key_is. rewrite String.eqb_eq.
    reflexivity. }
  assert (Hdedup : filter (key_is k) (drop_duplicates full_dataset) =
                   firstn 1 (filter (key_is k) full_dataset)).
  { unfold drop_duplicates. rewrite drop_duplicates_from_by_key. reflexivity. }
  destruct (filter (key_is k) full_dataset) as [|kept rest] eqn:Hfull.
  { exfalso. apply (proj2 (Hkey r1)); auto. }
  assert (Hmax : Forall (fun y => pop_max (place_of y) <= pop_max (place_of kept))
                        (kept :: rest)).
  { unfold full_dataset in Hfull. rewrite full_dataset_by_key in Hfull.
    unfold country_match in Hfull.
    apply sorted_join_head in Hfull; [exact Hfull|].
    apply StronglySorted_filter, sort_values_desc. }
  rewrite Forall_forall in Hmax.
  assert (Hkept : In kept full_dataset /\ nameascii (place_of kept) = k).
  { apply Hkey. left. reflexivity. }
  assert (Hr1 : pop_max (place_of r1) <= pop_max (place_of kept)).
  { apply Hmax, Hkey. auto. }
  exists kept. simpl in Hdedup.
  split; [exact Hdedup|]. split; [apply Hkept|]. split; [|split].
  - intros Hin.
    assert (Hin' : In r2 (filter (key_is k) (drop_duplicates full_dataset))).
    { apply filter_In. split; [exact Hin|].
      unfold key_is. apply String.eqb_eq. symmetry. exact Hname. }
    rewrite Hdedup in Hin'. destruct Hin' as [<-|[]]. lia.
  - intros r Hr Hk. apply Hmax, Hkey. auto.
  - intros Htwo. destruct (Htwo kept) as [H|H]; [apply Hkept|apply Hkept|exact H|].
    rewrite H in Hr1. lia.
Qed.

(** ** The only candidate fails *)

(** A column of the marker alone holds the marker. *)
Lemma to_column_marker : to_column [np_nan] = [np_nan].
Proof.
  pose proof (to_column_cells [np_nan]) as H.
  inversion H as [|v cell l rest Hcell Hrest]; subst. inversion Hrest; subst.
  f_equal. destruct Hcell as [H0 | [[H0 _] | (n & m & e & H0 & _)]];
    [exact H0 | discriminate H0 | discriminate H0].
Qed.

Lemma assign_weather_marker (row : joined) :
  assign_weather [row] [np_nan] [np_nan] [np_nan] =
  Ok [{| row_of := row; weather := np_nan;
         weather_description := np_nan; clouds := np_nan |}].
Proof. unfold assign_weather. rewrite to_column_marker. reflexivity. Qed.

(** When the only selected city is answered with a non-200 status, a body
    that decodes to an object whose [dt] is a number of seconds the clock can
    format, and the maps can be drawn, [select_cities] prints the diagnostic
    and returns the empty table. *)
Lemma select_cities_only_candidate_failed
    selection appid cities_data cities_id row url r j dt seconds timestr :
  let no_data :=
    {| row_of := row; weather := VStr "No data";
       weather_description := VStr "No data"; clouds := VStr "No data" |} in
  let title_clouds :=
    "Cloud % coverage of " ++ str_of_int selection ++ " most populated cities" in
  let title_clear := "Location of selected clear sky city on " ++ timestr in
  gpd_read_file "data_populated_places/ne_10m_populated_places_simple.shp"
    = Ok cities_data ->
  pd_read_json "data_populated_places/city.list.json" = Ok cities_id ->
  slice_to (drop_duplicates
              (country_match (merge (sort_values cities_data) cities_id)))
           selection = [row] ->
  str_format ("http://api.openweathermap.org/data/2.5/weather?id={}&APPID=" ++ appid)
             (id (entry_of row)) = Ok url ->
  requests_get url = Ok r ->
  json r = Some j ->
  status_code r <> 200 ->
  getitem_str j "dt" = Ok dt ->
  int_of_format dt = Ok seconds ->
  strftime_localtime seconds = Ok timestr ->
  draw_map [no_data] title_clouds = Ok tt ->
  draw_map [] title_clear = Ok tt ->
  select_cities selection appid =
  ((diagnostic (id (entry_of row)) r
    ++ [Shown [no_data] title_clouds; Shown [] title_clear])%list, Ok []).
Proof.
  intros no_data title_clouds title_clear
         Hdata Hid Hsel Hurl Hr Hj Hs Hdt Hsec Htime Hdraw1 Hdraw2.
  subst no_data title_clouds title_clear.
  pose proof (get_weather_last_failed
                _ [] (id (entry_of row)) [] loop_init url r j
                eq_refl Hurl Hr Hj Hs) as Hw.
  rewrite bind_pair in Hw. unfold get_weather_return in Hw.
  cbn [resp_j cloud_cov weath_desc weath_main loop_init app] in Hw.
  rewrite Hdt, bind_lift_Ok in Hw. cbn [ret fst snd] in Hw.
  rewrite app_nil_r in Hw.
  unfold select_cities. cbv zeta.
  rewrite Hdata, bind_lift_Ok, Hid, bind_lift_Ok, Hsel.
  change (map (fun r0 => id (entry_of r0)) [row]) with [id (entry_of row)].
  rewrite Hw, bind_pair. cbv beta iota.
  rewrite Hsec, bind_lift_Ok, Htime, bind_lift_Ok.
  rewrite assign_weather_marker, bind_lift_Ok.
  change (fillna [{| row_of := row; weather := np_nan;
                     weather_description := np_nan; clouds := np_nan |}])
    with [{| row_of := row; weather := VStr "No data";
             weather_description := VStr "No data"; clouds := VStr "No data" |}].
  change (filter (fun r0 => is_clear (weather r0))
            [{| row_of := row; weather := VStr "No data";
                weather_description := VStr "No data";
                clouds := VStr "No data" |}])
    with (@nil selected).
  unfold plot_on_map. rewrite Hdraw1, Hdraw2. reflexivity.
Qed.

End SelectCitiesProperties.

(** ** The claims on concrete data *)

(** Witness of C9: the only catalog entry of one of the names is of
    another country, so no row passes the comparison of the codes. *)
Lemma get_weather_empty_fails_witness :
  @select_cities
    (Mock.world Mock.places [{| name := "Paris"; country := "US"; id := 9 |}]
       Mock.server)
    reference_pandas 2 "key"
  = ([], Raise (UnboundLocalError "resp_j")).
Proof.
  apply (proj2 (@get_weather_empty_fails
                  (Mock.world Mock.places
                     [{| name := "Paris"; country := "US"; id := 9 |}]
                     Mock.server)
                  reference_pandas)
           2 "key" Mock.places [{| name := "Paris"; country := "US"; id := 9 |}]);
    vm_compute; reflexivity.
Defined.

(** Witness of C5: the smaller Springfield comes first in the file. *)
Lemma drop_duplicates_keeps_higher_pop_max_witness :
  let r1 := {| place_of := Mock.springfield_large; entry_of := Mock.springfield_id |} in
  let r2 := {| place_of := Mock.springfield_small; entry_of := Mock.springfield_id |} in
  let full_dataset :=
    country_match
      (@merge reference_pandas
         (@sort_values reference_pandas
            [Mock.springfield_small; Mock.paris; Mock.springfield_large])
         [Mock.springfield_id; Mock.paris_id]) in
  exists kept,
    filter (key_is "Springfield") (drop_duplicates full_dataset) = [kept] /\
    In kept full_dataset /\
    ~ In r2 (drop_duplicates full_dataset) /\
    (forall r, In r full_dataset ->
               nameascii (place_of r) = "Springfield" ->
               pop_max (place_of r) <= pop_max (place_of kept)) /\
    ((forall r, In r full_dataset ->
                nameascii (place_of r) = "Springfield" ->
                place_of r = Mock.springfield_large \/
                place_of r = Mock.springfield_small) ->
     place_of kept = Mock.springfield_large).
Proof.
  intros r1 r2 full_dataset.
  apply (@drop_duplicates_keeps_higher_pop_max reference_pandas
           [Mock.springfield_small; Mock.paris; Mock.springfield_large]
           [Mock.springfield_id; Mock.paris_id] r1 r2).
  - vm_compute. right. left. reflexivity.
  - vm_compute. right. right. left. reflexivity.
  - reflexivity.
  - vm_compute. reflexivity.
Defined.

(** C7, at the responses the code does not recover.  Paris is the only
    candidate and the answer has status 500.  With the body the provider
    sends with an error, the diagnostic is printed and then the call ends
    with [KeyError('dt')]; with the page of a web server, the call ends with
    the decoding error before anything is printed.  No table is returned in
    either case. *)
Theorem select_cities_only_candidate_500_raises :
  @select_cities
    (Mock.world [Mock.paris] [Mock.paris_id] [(Mock.endpoint 1, Mock.server_error)])
    reference_pandas 1 "key"
  = (@diagnostic 1 Mock.server_error, Raise (KeyError (VStr "dt"))) /\
  @select_cities
    (Mock.world [Mock.paris] [Mock.paris_id]
       [(Mock.endpoint 1, Mock.server_error_page)])
    reference_pandas 1 "key"
  = ([], Raise JSONDecodeError).
Proof. split; vm_compute; reflexivity. Qed.

(** The same scenario with a body that carries a [dt]: the diagnostic, the
    two maps and the empty table. *)
Example select_cities_only_candidate_500_with_dt :
  exists shown,
    @select_cities
      (Mock.world [Mock.paris] [Mock.paris_id]
         [(Mock.endpoint 1, Mock.server_error_with_dt 1700000000)])
      reference_pandas 1 "key"
    = ((@diagnostic 1 (Mock.server_error_with_dt 1700000000) ++ shown)%list, Ok []).
Proof. eexists. vm_compute. reflexivity. Qed.

(** The two scenarios of the specification with a successful answer. *)
Example select_cities_paris_clear :
  snd (@select_cities
         (Mock.world [Mock.paris] [Mock.paris_id]
            [(Mock.endpoint 1, Mock.ok_response "Clear" "clear sky" 5 1700000000)])
         reference_pandas 1 "key")
  = Ok [("Paris", VInt 5)].
Proof. vm_compute; reflexivity. Qed.

Example select_cities_paris_rain :
  snd (@select_cities
         (Mock.world [Mock.paris] [Mock.paris_id]
            [(Mock.endpoint 1, Mock.ok_response "Rain" "light rain" 80 1700000000)])
         reference_pandas 1 "key")
  = Ok [].
Proof. vm_compute; reflexivity. Qed.

(** A negative count is read as Python reads a negative slice bound: all
    rows but the last ones. *)
Example select_cities_negative_count :
  snd (@select_cities
         (Mock.world Mock.places Mock.catalog Mock.server) reference_pandas
         (-1) "key")
  = Ok [("Paris", VInt 5)].
Proof. vm_compute; reflexivity. Qed.

(** * Further properties of get_weather *)

Section GetWeatherFurther.
Context {world : World}.

(** An iteration that ends: the request was answered, the body decoded and
    is what [resp_j] holds afterwards, and the diagnostic is all that was
    printed, for a status other than 200 only. *)
Lemma get_weather_body_inv API_URL st city_id tr st' :
  get_weather_body API_URL st city_id = (tr, Ok st') ->
  exists url r j,
    str_format API_URL city_id = Ok url /\ requests_get url = Ok r /\
    json r = Some j /\ resp_j st' = Some j /\
    tr = if status_code r =? 200 then [] else diagnostic city_id r.
Proof.
  unfold get_weather_body, response_json. intros H.
  destruct (str_format API_URL city_id) as [url|] eqn:Hurl; [|discriminate].
  rewrite bind_lift_Ok in H.
  destruct (requests_get url) as [r|] eqn:Hr; [|discriminate].
  rewrite bind_lift_Ok in H.
  destruct (json r) as [j|] eqn:Hj; [|discriminate].
  rewrite bind_lift_Ok in H.
  exists url, r, j. repeat (split; [reflexivity || assumption|]).
  destruct (status_code r =? 200).
  - destruct (weather_0_main j) as [main|]; [|discriminate].
    rewrite !bind_lift_Ok in H.
    destruct (clouds_all j) as [cov|]; [|discriminate].
    rewrite bind_lift_Ok in H. inversion H. auto.
  - inversion H. auto.
Qed.

Lemma for_each_prints API_URL ids : forall st tr st',
  for_each (get_weather_body API_URL) st ids = (tr, Ok st') ->
  tr = diagnostics_of API_URL ids.
Proof.
  induction ids as [|c rest IH]; intros st tr st' H; simpl in H.
  - inversion H. reflexivity.
  - apply bind_Ok in H. destruct H as (tr1 & st1 & tr2 & Hbody & Hrest & ->).
    apply get_weather_body_inv in Hbody.
    destruct Hbody as (url & r & j & Hurl & Hr & _ & _ & ->).
    apply IH in Hrest. subst tr2.
    unfold diagnostics_of. simpl. rewrite Hurl, Hr. reflexivity.
Qed.

Lemma get_weather_trace_Ok API_URL id_list tr result :
  get_weather API_URL id_list = (tr, Ok result) ->
  tr = diagnostics_of API_URL id_list.
Proof.
  unfold get_weather. intros H. apply bind_Ok in H.
  destruct H as (tr1 & st & tr2 & Hloop & Hret & ->).
  apply for_each_prints in Hloop. subst tr1.
  unfold get_weather_return in Hret.
  destruct (resp_j st) as [j|]; [|discriminate].
  destruct (getitem_str j "dt") as [dt|]; [|discriminate].
  rewrite bind_lift_Ok in Hret. inversion Hret. apply app_nil_r.
Qed.

(** X1. What a call of [get_weather] that returns has printed is exactly
    the two-line diagnostic of every identifier answered with a status other
    than 200, in the order of the identifiers; an identifier answered 200
    prints nothing. *)
Theorem get_weather_prints_diagnostics API_URL id_list tr result :
  get_weather API_URL id_list = (tr, Ok result) ->
  tr = diagnostics_of API_URL id_list.
Proof. apply get_weather_trace_Ok. Qed.

(** An exception in one iteration ends the call, whatever identifiers come
    after it. *)
Lemma get_weather_body_raise_aborts API_URL pre city_id post tr st tr' e :
  for_each (get_weather_body API_URL) loop_init pre = (tr, Ok st) ->
  get_weather_body API_URL st city_id = (tr', Raise e) ->
  get_weather API_URL (pre ++ city_id :: post) = ((tr ++ tr')%list, Raise e).
Proof.
  intros Hpre Hbody. unfold get_weather.
  apply bind_Raise. rewrite for_each_app.
  apply bind_run with st; [exact Hpre|].
  simpl. apply bind_Raise. exact Hbody.
Qed.

(** X2. A response with status 200 is not checked for its shape: when
    [resp_j['weather'][0]['main']] or [resp_j['clouds']['all']] cannot be
    read from its body, the exception of the failed subscript (KeyError,
    IndexError or TypeError) ends the whole batch; the entry is not replaced
    by the marker as for a failed request. *)
Theorem get_weather_malformed_success_aborts
    API_URL pre city_id post tr st url r j e :
  for_each (get_weather_body API_URL) loop_init pre = (tr, Ok st) ->
  str_format API_URL city_id = Ok url ->
  requests_get url = Ok r ->
  json r = Some j ->
  status_code r = 200 ->
  weather_0_main j = Raise e \/
  (exists main, weather_0_main j = Ok main /\ clouds_all j = Raise e) ->
  get_weather API_URL (pre ++ city_id :: post) = (tr, Raise e).
Proof.
  intros Hpre Hurl Hr Hj Hs Hshape.
  rewrite <- (app_nil_r tr).
  apply get_weather_body_raise_aborts with st; [exact Hpre|].
  unfold get_weather_body, response_json.
  rewrite Hurl, bind_lift_Ok, Hr, bind_lift_Ok, Hj, bind_lift_Ok, Hs.
  change (200 =? 200) with true. cbv iota.
  destruct Hshape as [Hm | (main & Hm & Hc)].
  - rewrite Hm. reflexivity.
  - rewrite Hm, !bind_lift_Ok, Hc. reflexivity.
Qed.

(** X3. A request that raises in the requests library (no connection, a
    timeout) is not caught: the exception ends the batch with what was
    printed for the identifiers before, and nothing is returned. *)
Theorem get_weather_transport_fault_aborts
    API_URL pre city_id post tr st url e :
  for_each (get_weather_body API_URL) loop_init pre = (tr, Ok st) ->
  str_format API_URL city_id = Ok url ->
  requests_get url = Raise e ->
  get_weather API_URL (pre ++ city_id :: post) = (tr, Raise e).
Proof.
  intros Hpre Hurl Hr.
  rewrite <- (app_nil_r tr).
  apply get_weather_body_raise_aborts with st; [exact Hpre|].
  unfold get_weather_body. rewrite Hurl, bind_lift_Ok, Hr. reflexivity.
Qed.

(** X4. The timestamp [get_weather] returns is always read from the body of
    the response to the last identifier of the list, whatever the status of
    that response and whatever the responses before it. *)
Theorem get_weather_timestamp_from_last_body
    API_URL pre last tr covs descs mains dt :
  get_weather API_URL (pre ++ [last]) = (tr, Ok (covs, descs, mains, dt)) ->
  exists url r j,
    str_format API_URL last = Ok url /\ requests_get url = Ok r /\
    json r = Some j /\ getitem_str j "dt" = Ok dt.
Proof.
  unfold get_weather. intros H. apply bind_Ok in H.
  destruct H as (tr1 & st & tr2 & Hloop & Hret & _).
  rewrite for_each_snoc in Hloop. apply bind_Ok in Hloop.
  destruct Hloop as (tr3 & st0 & tr4 & _ & Hbody & _).
  apply get_weather_body_inv in Hbody.
  destruct Hbody as (url & r & j & Hurl & Hr & Hj & Hresp & _).
  exists url, r, j. repeat (split; [assumption|]).
  unfold get_weather_return in Hret. rewrite Hresp in Hret.
  destruct (getitem_str j "dt") as [dt'|]; [|discriminate].
  rewrite bind_lift_Ok in Hret. inversion Hret. reflexivity.
Qed.

End GetWeatherFurther.

(** * Further properties of select_cities *)

Lemma lift_inv {A} (r : result A) (tr : list event) (a : A) :
  lift r = (tr, Ok a) -> r = Ok a /\ tr = [].
Proof. unfold lift. intros H. inversion H. auto. Qed.

Section SelectCitiesFurther.
Context {world : World} {pandas : Pandas}.

Lemma plot_on_map_inv dataset title tr u :
  plot_on_map dataset title = (tr, Ok u) ->
  draw_map dataset title = Ok tt /\ tr = [Shown dataset title].
Proof.
  unfold plot_on_map. intros H.
  destruct (draw_map dataset title) as [[]|e]; [|discriminate].
  rewrite bind_lift_Ok in H. inversion H. auto.
Qed.

(** A run of [select_cities] that returns, step by step. *)
Lemma select_cities_inv selection appid tr table :
  select_cities selection appid = (tr, Ok table) ->
  exists cities_data cities_id covs descs mains dt seconds timestr rows,
    gpd_read_file path_data = Ok cities_data /\
    pd_read_json path_cityid = Ok cities_id /\
    snd (get_weather (weather_url appid)
           (map (fun r => id (entry_of r))
                (sel_dataset_of cities_data cities_id selection)))
      = Ok (covs, descs, mains, dt) /\
    int_of_format dt = Ok seconds /\
    strftime_localtime seconds = Ok timestr /\
    assign_weather (sel_dataset_of cities_data cities_id selection)
                   mains descs covs = Ok rows /\
    tr = (fst (get_weather (weather_url appid)
                 (map (fun r => id (entry_of r))
                      (sel_dataset_of cities_data cities_id selection)))
          ++ [Shown (fillna rows) (title_clouds_of selection);
              Shown (filter (fun r => is_clear (weather r)) (fillna rows))
                    (title_clear_of timestr)])%list /\
    table = project (filter (fun r => is_clear (weather r)) (fillna rows)).
Proof.
  unfold select_cities. cbv zeta. intros H.
  apply bind_Ok in H. destruct H as (? & cities_data & ? & Hdata & H & ->).
  apply lift_inv in Hdata. destruct Hdata as (Hdata & ->).
  apply bind_Ok in H. destruct H as (? & cities_id & ? & Hid & H & ->).
  apply lift_inv in Hid. destruct Hid as (Hid & ->).
  apply bind_Ok in H.
  destruct H as (tr_w & [[[covs descs] mains] dt] & ? & Hw & H & ->).
  apply bind_Ok in H. destruct H as (? & seconds & ? & Hsec & H & ->).
  apply lift_inv in Hsec. destruct Hsec as (Hsec & ->).
  apply bind_Ok in H. destruct H as (? & timestr & ? & Htime & H & ->).
  apply lift_inv in Htime. destruct Htime as (Htime & ->).
  apply bind_Ok in H. destruct H as (? & rows & ? & Hrows & H & ->).
  apply lift_inv in Hrows. destruct Hrows as (Hrows & ->).
  apply bind_Ok in H. destruct H as (? & ? & ? & Hplot1 & H & ->).
  apply plot_on_map_inv in Hplot1. destruct Hplot1 as (_ & ->).
  apply bind_Ok in H. destruct H as (? & ? & ? & Hplot2 & H & ->).
  apply plot_on_map_inv in Hplot2. destruct Hplot2 as (_ & ->).
  inversion H; subst.
  exists cities_data, cities_id, covs, descs, mains, dt, seconds, timestr, rows.
  unfold sel_dataset_of, clear_dataset_of, weather_url, path_data, path_cityid,
    title_clouds_of, title_clear_of.
  rewrite Hw. cbn [fst snd app].
  repeat (split; [assumption || reflexivity|]). reflexivity.
Qed.

Lemma is_clear_fill (v : value) : is_clear (fill v) = true -> v = VStr "Clear".
Proof.
  destruct v as [| | |f| | |]; try discriminate.
  - destruct f; discriminate.
  - simpl. intros H. apply String.eqb_eq in H. subst. reflexivity.
Qed.

Lemma isna_fill (v : value) : isna (fill v) = false.
Proof.
  unfold fill. destruct (isna v) eqn:Hv; [reflexivity | exact Hv].
Qed.

Lemma fillna_no_missing (rows : list selected) : Forall no_missing (fillna rows).
Proof.
  unfold fillna. apply Forall_map, Forall_forall. intros r _.
  unfold no_missing. simpl. rewrite !isna_fill. auto.
Qed.

(** A cell that reads ["Clear"] after [fillna] was given ["Clear"]. *)
Lemma column_cell_clear (v cell : value) :
  column_cell v cell -> is_clear (fill cell) = true ->
  v = VStr "Clear" /\ cell = VStr "Clear".
Proof.
  intros Hcell Hclear. apply is_clear_fill in Hclear. subst cell.
  destruct Hcell as [H | [[_ H] | (n & m & e & _ & H & _)]];
    [auto | discriminate H | discriminate H].
Qed.

Lemma column_cell_string (s : string) (cell : value) :
  column_cell (VStr s) cell -> cell = VStr s.
Proof.
  intros [H | [[H _] | (n & m & e & H & _)]];
    [exact H | discriminate H | discriminate H].
Qed.

Lemma aligned_rows API_URL : forall sel mains descs covs mains' descs' covs',
  aligned API_URL (map (fun r => id (entry_of r)) sel) mains descs covs ->
  Forall2 column_cell mains mains' ->
  Forall2 column_cell descs descs' ->
  Forall2 column_cell covs covs' ->
  Forall (row_answered API_URL sel)
         (map (fun x => match x with
                        | (r, m, d, c) =>
                            {| row_of := r; weather := m;
                               weather_description := d; clouds := c |}
                        end)
              (combine (combine (combine sel mains') descs') covs')).
Proof.
  induction sel as [|row sel IH];
    intros mains descs covs mains' descs' covs' H Hm Hd Hc; simpl in H.
  - constructor.
  - inversion H as [|? ? main mains0 desc descs0 cov covs0 Hans Hrest]; subst.
    inversion Hm as [|? m' ? mains1 Hm0 Hm1]; subst.
    inversion Hd as [|? d' ? descs1 Hd0 Hd1]; subst.
    inversion Hc as [|? c' ? covs1 Hc0 Hc1]; subst.
    simpl. constructor.
    + split; [left; reflexivity|]. exists main, desc, cov. simpl. auto.
    + eapply Forall_impl; [|exact (IH _ _ _ _ _ _ Hrest Hm1 Hd1 Hc1)].
      intros r [Hin Hr]. split; [right; exact Hin | exact Hr].
Qed.

Lemma assign_weather_answers API_URL sel mains descs covs rows :
  aligned API_URL (map (fun r => id (entry_of r)) sel) mains descs covs ->
  assign_weather sel mains descs covs = Ok rows ->
  Forall (row_answered API_URL sel) rows.
Proof.
  intros Hal H. unfold assign_weather in H.
  destruct ((length mains =? length sel)%nat && (length descs =? length sel)%nat
            && (length covs =? length sel)%nat)%bool; [|discriminate].
  inversion H. apply (aligned_rows _ _ _ _ _ _ _ _ Hal); apply to_column_cells.
Qed.

Lemma get_weather_snd_Ok API_URL id_list covs descs mains dt :
  snd (get_weather API_URL id_list) = Ok (covs, descs, mains, dt) ->
  aligned API_URL id_list mains descs covs.
Proof.
  destruct (get_weather API_URL id_list) as [tr res] eqn:H. simpl.
  intros ->. exact (get_weather_Ok _ _ _ _ _ _ _ H).
Qed.

(** A row that passes the filter on ["Clear"]: its request was answered 200
    with the main category ["Clear"], and its cloud cell is the cell of the
    [clouds.all] of that answer. *)
Lemma clear_row_answered appid sel r :
  row_answered (weather_url appid) sel r ->
  is_clear (fill (weather r)) = true ->
  In (row_of r) sel /\ weather r = VStr "Clear" /\
  exists url resp j cov,
    str_format (weather_url appid) (id (entry_of (row_of r))) = Ok url /\
    requests_get url = Ok resp /\ json resp = Some j /\
    status_code resp = 200 /\
    weather_0_main j = Ok (VStr "Clear") /\
    clouds_all j = Ok cov /\ column_cell cov (clouds r).
Proof.
  intros (Hsel & main & desc & cov & (url & resp & j & Hurl & Hr & Hj & Hobs)
          & Hm & _ & Hc) Hclear.
  destruct (column_cell_clear _ _ Hm Hclear) as [-> Hw].
  split; [exact Hsel|]. split; [exact Hw|].
  unfold observed in Hobs. destruct (status_code resp =? 200) eqn:Hs.
  - apply Z.eqb_eq in Hs. destruct Hobs as (Hmain & _ & Hcov).
    exists url, resp, j, cov. repeat (split; [assumption|]). exact Hc.
  - destruct Hobs as (Hmain & _). discriminate Hmain.
Qed.

(** X5. Every row of the table [select_cities] returns is a city of the
    selection whose own request was answered with status 200 and a body
    whose [weather[0].main] is the string ["Clear"]; its second column is the
    cell the column holds for the [clouds.all] of that body (that value, or
    the float of the same integer), with ["No data"] for a null or a NaN. *)
Theorem select_cities_rows_answered_clear selection appid tr table city c :
  select_cities selection appid = (tr, Ok table) ->
  In (city, c) table ->
  exists cities_data cities_id row url r j cov cell,
    gpd_read_file path_data = Ok cities_data /\
    pd_read_json path_cityid = Ok cities_id /\
    In row (sel_dataset_of cities_data cities_id selection) /\
    nameascii (place_of row) = city /\
    str_format (weather_url appid) (id (entry_of row)) = Ok url /\
    requests_get url = Ok r /\ json r = Some j /\
    status_code r = 200 /\
    weather_0_main j = Ok (VStr "Clear") /\
    clouds_all j = Ok cov /\ column_cell cov cell /\ c = fill cell.
Proof.
  intros H Hin. apply select_cities_inv in H.
  destruct H as (cities_data & cities_id & covs & descs & mains & dt & seconds
                 & timestr & rows & Hdata & Hid & Hw & _ & _ & Hrows & _ & ->).
  apply get_weather_snd_Ok in Hw.
  pose proof (assign_weather_answers _ _ _ _ _ _ Hw Hrows) as Hans.
  rewrite Forall_forall in Hans.
  unfold project in Hin. apply in_map_iff in Hin.
  destruct Hin as (r' & Heq & Hr'). inversion Heq; subst city c. clear Heq.
  apply filter_In in Hr'. destruct Hr' as [Hr' Hclear].
  unfold fillna in Hr'. apply in_map_iff in Hr'.
  destruct Hr' as (r0 & <- & Hr0). simpl in *.
  destruct (clear_row_answered _ _ _ (Hans r0 Hr0) Hclear)
    as (Hsel & _ & url & r & j & cov & Hurl & Hr & Hj & Hs & Hm & Hc & Hcell).
  exists cities_data, cities_id, (row_of r0), url, r, j, cov, (clouds r0).
  repeat (split; [assumption || reflexivity|]). reflexivity.
Qed.

(** X6. The other way round: when [select_cities] returns, it returns every
    city of the selection whose request is answered with status 200 and a
    body whose [weather[0].main] is ["Clear"], with the cell the column holds
    for the [clouds.all] of that body. *)
Theorem select_cities_returns_clear_cities
    selection appid tr table cities_data cities_id row url r j cov :
  select_cities selection appid = (tr, Ok table) ->
  gpd_read_file path_data = Ok cities_data ->
  pd_read_json path_cityid = Ok cities_id ->
  In row (sel_dataset_of cities_data cities_id selection) ->
  str_format (weather_url appid) (id (entry_of row)) = Ok url ->
  requests_get url = Ok r ->
  json r = Some j ->
  status_code r = 200 ->
  weather_0_main j = Ok (VStr "Clear") ->
  clouds_all j = Ok cov ->
  exists cell,
    column_cell cov cell /\ In (nameascii (place_of row), fill cell) table.
Proof.
  intros H Hdata Hid Hrow Hurl Hr Hj Hs Hm Hc. apply select_cities_inv in H.
  destruct H as (cities_data' & cities_id' & covs & descs & mains & dt & seconds
                 & timestr & rows & Hdata' & Hid' & Hw & _ & _ & Hrows & _ & ->).
  rewrite Hdata in Hdata'. rewrite Hid in Hid'.
  inversion Hdata'; inversion Hid'; subst cities_data' cities_id'.
  apply get_weather_snd_Ok in Hw.
  pose proof (assign_weather_answers _ _ _ _ _ _ Hw Hrows) as Hans.
  rewrite Forall_forall in Hans.
  rewrite <- (assign_weather_rows _ _ _ _ _ Hrows) in Hrow.
  apply in_map_iff in Hrow. destruct Hrow as (r0 & <- & Hr0).
  destruct (Hans r0 Hr0)
    as (_ & main & desc & cov' & (url' & r' & j' & Hurl' & Hr' & Hj' & Hobs)
        & Hcm & _ & Hcc).
  rewrite Hurl in Hurl'. inversion Hurl'; subst url'.
  rewrite Hr in Hr'. inversion Hr'; subst r'.
  rewrite Hj in Hj'. inversion Hj'; subst j'.
  unfold observed in Hobs. apply Z.eqb_eq in Hs. rewrite Hs in Hobs.
  destruct Hobs as (Hm' & _ & Hc').
  rewrite Hm in Hm'. rewrite Hc in Hc'.
  inversion Hm'; subst main. inversion Hc'; subst cov'.
  apply column_cell_string in Hcm.
  exists (clouds r0). split; [exact Hcc|].
  unfold project. apply in_map_iff.
  exists {| row_of := row_of r0; weather := fill (weather r0);
            weather_description := fill (weather_description r0);
            clouds := fill (clouds r0) |}.
  simpl. split; [reflexivity|].
  apply filter_In. split.
  - unfold fillna. apply in_map_iff. exists r0. auto.
  - simpl. rewrite Hcm. reflexivity.
Qed.

(** X7. The column assignments of [select_cities] cannot fail on a length:
    whenever [get_weather] returns for the identifiers of a selection, the
    three lists fit the selection and the rows built from them are the rows
    of the selection, in order. *)
Theorem get_weather_lists_fit_selection API_URL sel tr covs descs mains dt :
  get_weather API_URL (map (fun r => id (entry_of r)) sel)
    = (tr, Ok (covs, descs, mains, dt)) ->
  exists rows,
    assign_weather sel mains descs covs = Ok rows /\ map row_of rows = sel.
Proof.
  intros H. apply get_weather_Ok in H. apply aligned_length in H.
  rewrite length_map in H. destruct H as (Hm & Hd & Hc).
  assert (Hok : exists rows, assign_weather sel mains descs covs = Ok rows).
  { unfold assign_weather. rewrite Hm, Hd, Hc, Nat.eqb_refl. simpl.
    eexists. reflexivity. }
  destruct Hok as (rows & Hrows). exists rows. split; [exact Hrows|].
  exact (assign_weather_rows _ _ _ _ _ Hrows).
Qed.

(** Membership in the join, from its law. *)
Lemma merge_In (l : list place) (rr : list city_id_record) (r : joined) :
  In r (merge l rr) ->
  In (place_of r) l /\ In (entry_of r) rr /\
  nameascii (place_of r) = name (entry_of r).
Proof.
  intros H.
  assert (Hk : In r (filter (key_is (nameascii (place_of r))) (merge l rr))).
  { apply filter_In. split; [exact H|]. unfold key_is. apply String.eqb_refl. }
  rewrite merge_by_key in Hk. apply in_flat_map in Hk.
  destruct Hk as (p & Hp & Hr). apply in_map_iff in Hr.
  destruct Hr as (c & <- & Hc). simpl in *.
  apply filter_In in Hp. apply filter_In in Hc.
  destruct Hp as [Hp _]. destruct Hc as [Hc Hname].
  apply String.eqb_eq in Hname. auto.
Qed.

Lemma merge_In_intro (l : list place) (rr : list city_id_record) p c :
  In p l -> In c rr -> nameascii p = name c ->
  In (Build_joined p c) (merge l rr).
Proof.
  intros Hp Hc Hname.
  assert (Hk : In (Build_joined p c) (filter (key_is (nameascii p)) (merge l rr))).
  { rewrite merge_by_key. apply in_flat_map. exists p. split.
    - apply filter_In. split; [exact Hp | apply String.eqb_refl].
    - apply in_map, filter_In. split; [exact Hc|].
      apply String.eqb_eq. symmetry. exact Hname. }
  apply filter_In in Hk. apply Hk.
Qed.

(** The names [drop_duplicates] keeps are new and pairwise different. *)
Lemma drop_duplicates_from_fresh (rows : list joined) : forall seen r,
  In r (drop_duplicates_from seen rows) ->
  existsb (String.eqb (nameascii (place_of r))) seen = false.
Proof.
  induction rows as [|a rest IH]; intros seen r; simpl; [intros []|].
  destruct (existsb (String.eqb (nameascii (place_of a))) seen) eqn:Hseen.
  - apply IH.
  - intros [<-|H]; [exact Hseen|].
    apply IH in H. simpl in H. apply orb_false_iff in H. apply H.
Qed.

Lemma drop_duplicates_from_NoDup (rows : list joined) : forall seen,
  NoDup (map (fun r => nameascii (place_of r)) (drop_duplicates_from seen rows)).
Proof.
  induction rows as [|a rest IH]; intros seen; simpl; [constructor|].
  destruct (existsb (String.eqb (nameascii (place_of a))) seen); [apply IH|].
  simpl. constructor; [|apply IH].
  intros Hin. apply in_map_iff in Hin. destruct Hin as (r & Hname & Hr).
  apply drop_duplicates_from_fresh in Hr. simpl in Hr.
  rewrite Hname, String.eqb_refl in Hr. discriminate.
Qed.

Lemma NoDup_map_filter {A B} (f : A -> B) (q : A -> bool) (l : list A) :
  NoDup (map f l) -> NoDup (map f (filter q l)).
Proof.
  induction l as [|a rest IH]; simpl; [auto|].
  intros H. inversion H as [|? ? Hnotin Hrest]; subst.
  destruct (q a); [|apply IH, Hrest].
  simpl. constructor; [|apply IH, Hrest].
  intros Hin. apply Hnotin. apply in_map_iff in Hin.
  destruct Hin as (x & Hx & Hin). apply filter_In in Hin.
  apply in_map_iff. exists x. split; [exact Hx | apply Hin].
Qed.

Lemma NoDup_map_slice_to {A B} (f : A -> B) (l : list A) (stop : Z) :
  NoDup (map f l) -> NoDup (map f (slice_to l stop)).
Proof.
  unfold slice_to. intros H.
  set (n := Z.to_nat (if stop <? 0 then Z.max (Z.of_nat (length l) + stop) 0
                      else Z.min stop (Z.of_nat (length l)))).
  rewrite <- (firstn_skipn n l), map_app in H.
  exact (NoDup_app_remove_r _ _ H).
Qed.

Lemma slice_to_all {A} (rows : list A) (stop : Z) :
  Z.of_nat (length rows) <= stop -> slice_to rows stop = rows.
Proof.
  intros H. unfold slice_to.
  destruct (stop <? 0) eqn:Hneg; [apply Z.ltb_lt in Hneg; lia|].
  apply firstn_all2. lia.
Qed.

(** A row of the returned table comes from a row of the selection. *)
Lemma table_row_selected selection appid tr table city c :
  select_cities selection appid = (tr, Ok table) ->
  In (city, c) table ->
  exists cities_data cities_id row,
    gpd_read_file path_data = Ok cities_data /\
    pd_read_json path_cityid = Ok cities_id /\
    In row (sel_dataset_of cities_data cities_id selection) /\
    nameascii (place_of row) = city.
Proof.
  intros H Hin. apply select_cities_inv in H.
  destruct H as (cities_data & cities_id & covs & descs & mains & dt & seconds
                 & timestr & rows & Hdata & Hid & _ & _ & _ & Hrows & _ & ->).
  unfold project in Hin. apply in_map_iff in Hin.
  destruct Hin as (r' & Heq & Hr'). inversion Heq; subst city c. clear Heq.
  apply filter_In in Hr'. destruct Hr' as [Hr' _].
  exists cities_data, cities_id, (row_of r').
  repeat (split; [assumption || reflexivity|]). split; [|reflexivity].
  rewrite <- (assign_weather_rows _ _ _ _ _ Hrows), <- fillna_rows.
  apply in_map, Hr'.
Qed.

(** X8. No city is returned twice: the names in the first column of the
    table [select_cities] returns are pairwise different. *)
Theorem select_cities_names_distinct selection appid tr table :
  select_cities selection appid = (tr, Ok table) ->
  NoDup (map fst table).
Proof.
  intros H. apply select_cities_inv in H.
  destruct H as (cities_data & cities_id & covs & descs & mains & dt & seconds
                 & timestr & rows & _ & _ & _ & _ & _ & Hrows & _ & ->).
  unfold project. rewrite map_map. simpl.
  apply NoDup_map_filter.
  rewrite <- (map_map row_of (fun r => nameascii (place_of r))).
  rewrite fillna_rows, (assign_weather_rows _ _ _ _ _ Hrows).
  unfold sel_dataset_of, clear_dataset_of, drop_duplicates.
  apply NoDup_map_slice_to, drop_duplicates_from_NoDup.
Qed.

(** X9. Every city of the table [select_cities] returns is the name of a
    place record of the shapefile and of an entry of the catalog that have
    the same country code. *)
Theorem select_cities_rows_from_both_files selection appid tr table city c :
  select_cities selection appid = (tr, Ok table) ->
  In (city, c) table ->
  exists cities_data cities_id p e,
    gpd_read_file path_data = Ok cities_data /\
    pd_read_json path_cityid = Ok cities_id /\
    In p cities_data /\ In e cities_id /\
    nameascii p = city /\ name e = city /\ iso_a2 p = country e.
Proof.
  intros H Hin.
  destruct (table_row_selected _ _ _ _ _ _ H Hin)
    as (cities_data & cities_id & row & Hdata & Hid & Hrow & Hname).
  unfold sel_dataset_of, clear_dataset_of in Hrow.
  apply slice_to_incl in Hrow. apply drop_duplicates_from_incl in Hrow.
  apply country_match_In in Hrow. destruct Hrow as [Hrow Hcodes].
  apply merge_In in Hrow. destruct Hrow as (Hp & He & Hkey).
  exists cities_data, cities_id, (place_of row), (entry_of row).
  repeat (split; [assumption|]).
  split; [exact (Permutation_in _ (sort_values_perm cities_data) Hp)|].
  split; [exact He|]. split; [exact Hname|].
  split; [congruence | exact Hcodes].
Qed.

(** X10. When the count is at least the number of candidate rows, every
    name that a place record and a catalog entry of the same country share is
    selected, by exactly one row. *)
Theorem matching_city_is_selected cities_data cities_id selection p e :
  In p cities_data ->
  In e cities_id ->
  nameascii p = name e ->
  iso_a2 p = country e ->
  Z.of_nat (length (clear_dataset_of cities_data cities_id)) <= selection ->
  exists row,
    In row (sel_dataset_of cities_data cities_id selection) /\
    nameascii (place_of row) = nameascii p /\
    forall row', In row' (sel_dataset_of cities_data cities_id selection) ->
                 nameascii (place_of row') = nameascii p -> row' = row.
Proof.
  intros Hp He Hname Hcodes Hall.
  unfold sel_dataset_of. rewrite (slice_to_all _ _ Hall).
  set (full := country_match (merge (sort_values cities_data) cities_id)).
  assert (Hfull : In (Build_joined p e) (filter (key_is (nameascii p)) full)).
  { apply filter_In. split; [|apply String.eqb_refl].
    apply country_match_In. split; [|exact Hcodes].
    apply merge_In_intro; [|exact He|exact Hname].
    exact (Permutation_in _ (Permutation_sym (sort_values_perm cities_data)) Hp). }
  assert (Hdedup : filter (key_is (nameascii p)) (clear_dataset_of cities_data cities_id)
                   = firstn 1 (filter (key_is (nameascii p)) full)).
  { unfold clear_dataset_of, drop_duplicates.
    rewrite drop_duplicates_from_by_key. reflexivity. }
  destruct (filter (key_is (nameascii p)) full) as [|kept rest] eqn:Hk;
    [destruct Hfull|].
  simpl in Hdedup.
  assert (Hin : forall r, In r (clear_dataset_of cities_data cities_id) /\
                          nameascii (place_of r) = nameascii p <-> r = kept).
  { intros r. rewrite <- (String.eqb_eq (nameascii (place_of r))).
    change (String.eqb (nameascii (place_of r)) (nameascii p))
      with (key_is (nameascii p) r).
    rewrite <- filter_In, Hdedup. simpl. intuition. }
  exists kept. destruct (proj2 (Hin kept) eq_refl) as [Hkept Hkname].
  split; [exact Hkept|]. split; [exact Hkname|].
  intros row' Hrow' Hname'. apply Hin. auto.
Qed.

(** X11. What a run of [select_cities] that returns has done, in order: the
    diagnostics of the failed requests of the selection; one map of the rows
    built from the selection and the three lists of [get_weather], after
    [fillna], under the title that names the count; one map of the rows of
    that dataset whose weather is ["Clear"], under the title that holds the
    [dt] returned by [get_weather], read as an integer and formatted by the
    clock.  The table returned is the projection of the dataset of the
    second map. *)
Theorem select_cities_shows_two_maps selection appid tr table :
  select_cities selection appid = (tr, Ok table) ->
  exists cities_data cities_id covs descs mains dt seconds timestr rows,
    gpd_read_file path_data = Ok cities_data /\
    pd_read_json path_cityid = Ok cities_id /\
    snd (get_weather (weather_url appid)
           (map (fun r => id (entry_of r))
                (sel_dataset_of cities_data cities_id selection)))
      = Ok (covs, descs, mains, dt) /\
    int_of_format dt = Ok seconds /\
    strftime_localtime seconds = Ok timestr /\
    assign_weather (sel_dataset_of cities_data cities_id selection)
                   mains descs covs = Ok rows /\
    tr = (diagnostics_of (weather_url appid)
            (map (fun r => id (entry_of r))
                 (sel_dataset_of cities_data cities_id selection))
          ++ [Shown (fillna rows) (title_clouds_of selection);
              Shown (filter (fun r => is_clear (weather r)) (fillna rows))
                    (title_clear_of timestr)])%list /\
    table = project (filter (fun r => is_clear (weather r)) (fillna rows)).
Proof.
  intros H. apply select_cities_inv in H.
  destruct H as (cities_data & cities_id & covs & descs & mains & dt & seconds
                 & timestr & rows & Hdata & Hid & Hw & Hsec & Htime & Hrows
                 & -> & ->).
  exists cities_data, cities_id, covs, descs, mains, dt, seconds, timestr, rows.
  repeat (split; [assumption|]).
  split; [|reflexivity]. f_equal.
  destruct (get_weather (weather_url appid)
              (map (fun r => id (entry_of r))
                   (sel_dataset_of cities_data cities_id selection)))
    as [tr_w res] eqn:Hrun.
  simpl in Hw. subst res. simpl.
  exact (get_weather_trace_Ok _ _ _ _ Hrun).
Qed.

Lemma select_cities_trace_filled (P : selected -> Prop) selection appid :
  (forall rows, Forall P (fillna rows)) ->
  Forall (shows P) (fst (select_cities selection appid)).
Proof.
  intros HP. unfold select_cities. cbv zeta.
  apply bind_trace; [constructor|]. intros cities_data _.
  apply bind_trace; [constructor|]. intros cities_id _.
  apply bind_trace; [apply printed_shows, get_weather_prints|].
  intros [[[covs descs] mains] dt] _.
  apply bind_trace; [constructor|]. intros seconds _.
  apply bind_trace; [constructor|]. intros timestr _.
  apply bind_trace; [constructor|]. intros rows _.
  apply bind_trace; [apply plot_on_map_shows, HP|]. intros _ _.
  apply bind_trace; [apply plot_on_map_shows, Forall_filter, HP|].
  intros _ _. constructor.
Qed.

(** X12. No missing value reaches an output: in every dataset
    [select_cities] shows on a map, whether it returns or raises afterwards,
    no weather cell is None or NaN, and no entry of the second column of a
    returned table is. *)
Theorem select_cities_no_missing_value selection appid :
  (forall dataset title,
      In (Shown dataset title) (fst (select_cities selection appid)) ->
      Forall no_missing dataset) /\
  (forall table city c,
      snd (select_cities selection appid) = Ok table ->
      In (city, c) table -> isna c = false).
Proof.
  split.
  - intros dataset title Hin.
    pose proof (select_cities_trace_filled no_missing selection appid
                  fillna_no_missing) as Htr.
    rewrite Forall_forall in Htr. exact (Htr _ Hin).
  - intros table city c H Hin. apply select_cities_Ok in H.
    destruct H as (cities_data & cities_id & covs & descs & mains & dt & rows & H).
    cbv zeta in H. destruct H as (_ & _ & _ & _ & ->).
    unfold project in Hin. apply in_map_iff in Hin.
    destruct Hin as (r & Heq & Hr). inversion Heq; subst.
    apply filter_In in Hr. destruct Hr as [Hr _].
    pose proof (fillna_no_missing rows) as Hall.
    rewrite Forall_forall in Hall. apply (Hall r Hr).
Qed.

(** X13. The timestamp must be an integer or a string: when [get_weather]
    returns a [dt] of another type (a float, a boolean, null, a list, an
    object), [select_cities] ends with the ValueError of [int(...)] after all
    the requests and before any map is shown. *)
Theorem select_cities_timestamp_not_integer
    selection appid cities_data cities_id tr covs descs mains dt :
  gpd_read_file path_data = Ok cities_data ->
  pd_read_json path_cityid = Ok cities_id ->
  get_weather (weather_url appid)
    (map (fun r => id (entry_of r))
         (sel_dataset_of cities_data cities_id selection))
    = (tr, Ok (covs, descs, mains, dt)) ->
  (forall n, dt <> VInt n) ->
  (forall text, dt <> VStr text) ->
  select_cities selection appid = (tr, Raise ValueError).
Proof.
  intros Hdata Hid Hw Hint Hstr.
  unfold select_cities. cbv zeta.
  unfold path_data, path_cityid, weather_url, sel_dataset_of, clear_dataset_of in *.
  rewrite Hdata, bind_lift_Ok, Hid, bind_lift_Ok, Hw, bind_pair.
  cbv beta iota.
  assert (Hfmt : int_of_format dt = Raise ValueError).
  { destruct dt; try reflexivity.
    - destruct (Hint n eq_refl).
    - destruct (Hstr s eq_refl). }
  rewrite Hfmt. simpl. rewrite app_nil_r. reflexivity.
Qed.

(** X14. A map that cannot be drawn is fatal: when the renderer raises on
    the first map, [select_cities] ends with that exception, after the
    requests and their diagnostics, shows nothing and returns nothing. *)
Theorem select_cities_first_map_fails
    selection appid cities_data cities_id tr covs descs mains dt
    seconds timestr rows e :
  gpd_read_file path_data = Ok cities_data ->
  pd_read_json path_cityid = Ok cities_id ->
  get_weather (weather_url appid)
    (map (fun r => id (entry_of r))
         (sel_dataset_of cities_data cities_id selection))
    = (tr, Ok (covs, descs, mains, dt)) ->
  int_of_format dt = Ok seconds ->
  strftime_localtime seconds = Ok timestr ->
  assign_weather (sel_dataset_of cities_data cities_id selection)
                 mains descs covs = Ok rows ->
  draw_map (fillna rows) (title_clouds_of selection) = Raise e ->
  select_cities selection appid = (tr, Raise e).
Proof.
  intros Hdata Hid Hw Hsec Htime Hrows Hdraw.
  unfold select_cities. cbv zeta.
  unfold path_data, path_cityid, weather_url, sel_dataset_of, clear_dataset_of,
    title_clouds_of in *.
  rewrite Hdata, bind_lift_Ok, Hid, bind_lift_Ok, Hw, bind_pair.
  cbv beta iota.
  rewrite Hsec, bind_lift_Ok, Htime, bind_lift_Ok, Hrows, bind_lift_Ok.
  unfold plot_on_map. rewrite Hdraw. simpl. rewrite app_nil_r. reflexivity.
Qed.

(** ** The table returned *)

(** C1. For a selection count [N >= 0], in every run of [select_cities]
    that returns: the table has at most [N] rows; it is the projection, on
    the two columns [nameascii] and [clouds], of the dataset of the second
    and last map shown; and every row of that dataset has the weather cell
    exactly ["Clear"], the main category the provider answered for the
    identifier of that row with status 200. *)
Theorem select_cities_clear_rows selection appid tr table :
  0 <= selection ->
  select_cities selection appid = (tr, Ok table) ->
  Z.of_nat (length table) <= selection /\
  exists diagnostics shown title_clouds final_dataset title_clear,
    tr = (diagnostics
          ++ [Shown shown title_clouds; Shown final_dataset title_clear])%list /\
    table = map (fun r => (nameascii (place_of (row_of r)), clouds r))
                final_dataset /\
    Forall (fun r => weather r = VStr "Clear" /\
                     answered_clear appid (row_of r)) final_dataset.
Proof.
  intros Hsel H. apply select_cities_inv in H.
  destruct H as (cities_data & cities_id & covs & descs & mains & dt & seconds
                 & timestr & rows & Hdata & Hid & Hw & _ & _ & Hrows & -> & ->).
  split.
  - unfold project. rewrite length_map.
    apply Z.le_trans with (Z.of_nat (length (fillna rows))).
    + apply Nat2Z.inj_le, filter_length_le.
    + rewrite <- (length_map row_of), fillna_rows.
      rewrite (assign_weather_rows _ _ _ _ _ Hrows).
      apply slice_to_length, Hsel.
  - eexists _, _, _, _, _. split; [reflexivity|]. split; [reflexivity|].
    apply get_weather_snd_Ok in Hw.
    pose proof (assign_weather_answers _ _ _ _ _ _ Hw Hrows) as Hans.
    rewrite Forall_forall in Hans.
    apply Forall_forall. intros r Hr.
    apply filter_In in Hr. destruct Hr as [Hr Hclear].
    unfold fillna in Hr. apply in_map_iff in Hr.
    destruct Hr as (r0 & <- & Hr0). simpl in *.
    destruct (clear_row_answered _ _ _ (Hans r0 Hr0) Hclear)
      as (_ & Hweather & url & resp & j & cov & Hurl & Hresp & Hj & Hs & Hm & _).
    split; [rewrite Hweather; reflexivity|].
    exists url, resp, j. auto.
Qed.

(** C6. Whatever the selection count: every row of every dataset that
    [select_cities] shows on a map, in a run that returns or raises, has the
    country code of the place record equal to the country code of the
    catalog entry.  In a run that returns, the table is the projection of
    the dataset of the last map, each row of which is built on a row of the
    join of the two files read whose two codes are equal; a joined row whose
    codes differ is the row of no dataset shown and of no row returned. *)
Theorem select_cities_country_codes_match selection appid :
  (forall dataset title,
      In (Shown dataset title) (fst (select_cities selection appid)) ->
      Forall codes_match dataset) /\
  (forall tr table,
      select_cities selection appid = (tr, Ok table) ->
      exists cities_data cities_id diagnostics shown title_clouds
             final_dataset title_clear,
        gpd_read_file path_data = Ok cities_data /\
        pd_read_json path_cityid = Ok cities_id /\
        tr = (diagnostics
              ++ [Shown shown title_clouds; Shown final_dataset title_clear])%list /\
        table = project final_dataset /\
        Forall (fun r => In (row_of r) (merge (sort_values cities_data) cities_id)
                         /\ codes_match r) final_dataset /\
        forall row,
          iso_a2 (place_of row) <> country (entry_of row) ->
          ~ In row (map row_of shown) /\ ~ In row (map row_of final_dataset)).
Proof.
  split.
  - intros dataset title Hin.
    pose proof (select_cities_trace selection appid) as Htr.
    rewrite Forall_forall in Htr. exact (Htr _ Hin).
  - intros tr table H. apply select_cities_inv in H.
    destruct H as (cities_data & cities_id & covs & descs & mains & dt & seconds
                   & timestr & rows & Hdata & Hid & _ & _ & _ & Hrows & -> & ->).
    assert (Hsel : forall r, In r (fillna rows) ->
                   In (row_of r) (merge (sort_values cities_data) cities_id) /\
                   codes_match r).
    { intros r Hr. apply (in_map row_of) in Hr.
      rewrite fillna_rows, (assign_weather_rows _ _ _ _ _ Hrows) in Hr.
      unfold sel_dataset_of, clear_dataset_of in Hr.
      apply slice_to_incl in Hr. apply drop_duplicates_from_incl in Hr.
      apply country_match_In in Hr. exact Hr. }
    exists cities_data, cities_id. eexists _, _, _, _, _.
    split; [exact Hdata|]. split; [exact Hid|].
    split; [reflexivity|]. split; [reflexivity|]. split.
    + apply Forall_forall. intros r Hr. apply filter_In in Hr.
      apply Hsel, Hr.
    + intros row Hrow. split; intros Hin; apply in_map_iff in Hin;
        destruct Hin as (r & <- & Hr).
      * apply Hrow. apply (Hsel r Hr).
      * apply filter_In in Hr. apply Hrow. apply (Hsel r), Hr.
Qed.

End SelectCitiesFurther.

(** ** The further properties on concrete data *)

(** Witness of X1. *)
Lemma get_weather_prints_diagnostics_witness :
  @diagnostic 2 (Mock.server_error_with_dt 1700000007) =
  @diagnostics_of
    (Mock.world [] []
       [(Mock.endpoint 1, Mock.ok_response "Clear" "clear sky" 5 1700000000);
        (Mock.endpoint 2, Mock.server_error_with_dt 1700000007)])
    Mock.api_url [1; 2].
Proof.
  apply (@get_weather_prints_diagnostics
           (Mock.world [] []
              [(Mock.endpoint 1, Mock.ok_response "Clear" "clear sky" 5 1700000000);
               (Mock.endpoint 2, Mock.server_error_with_dt 1700000007)])
           Mock.api_url [1; 2]
           (@diagnostic 2 (Mock.server_error_with_dt 1700000007))
           ([VInt 5; np_nan], [VStr "Clear"; np_nan], [VStr "Clear"; np_nan],
            VInt 1700000007)).
  vm_compute; reflexivity.
Defined.

(** Witness of X2: the second of three answers has an empty [weather]. *)
Lemma get_weather_malformed_success_aborts_witness :
  @get_weather
    (Mock.world [] []
       [(Mock.endpoint 1, Mock.ok_response "Clear" "clear sky" 5 1700000000);
        (Mock.endpoint 2, Mock.empty_weather_response);
        (Mock.endpoint 3, Mock.ok_response "Rain" "light rain" 80 1700000003)])
    Mock.api_url ([1] ++ 2 :: [3])
  = ([], Raise IndexError).
Proof.
  apply (@get_weather_malformed_success_aborts
           (Mock.world [] []
              [(Mock.endpoint 1, Mock.ok_response "Clear" "clear sky" 5 1700000000);
               (Mock.endpoint 2, Mock.empty_weather_response);
               (Mock.endpoint 3, Mock.ok_response "Rain" "light rain" 80 1700000003)])
           Mock.api_url [1] 2 [3] []
           {| weath_main := [VStr "Clear"]; weath_desc := [VStr "Clear"];
              cloud_cov := [VInt 5];
              resp_j := Some (Mock.observation "Clear" "clear sky" 5 1700000000) |}
           (Mock.endpoint 2) Mock.empty_weather_response
           (VDict [("weather", VList []);
                   ("clouds", VDict [("all", VInt 40)]);
                   ("dt", VInt 1700000000)])
           IndexError);
    try (vm_compute; reflexivity).
  left. vm_compute; reflexivity.
Defined.

(** Witness of X3: nobody answers for the identifier 4. *)
Lemma get_weather_transport_fault_aborts_witness :
  @get_weather
    (Mock.world [] []
       [(Mock.endpoint 1, Mock.ok_response "Clear" "clear sky" 5 1700000000);
        (Mock.endpoint 2, Mock.ok_response "Rain" "light rain" 80 1700000002)])
    Mock.api_url ([1] ++ 4 :: [2])
  = ([], Raise (LibraryError "ConnectionError")).
Proof.
  apply (@get_weather_transport_fault_aborts
           (Mock.world [] []
              [(Mock.endpoint 1, Mock.ok_response "Clear" "clear sky" 5 1700000000);
               (Mock.endpoint 2, Mock.ok_response "Rain" "light rain" 80 1700000002)])
           Mock.api_url [1] 4 [2] []
           {| weath_main := [VStr "Clear"]; weath_desc := [VStr "Clear"];
              cloud_cov := [VInt 5];
              resp_j := Some (Mock.observation "Clear" "clear sky" 5 1700000000) |}
           (Mock.endpoint 4) (LibraryError "ConnectionError"));
    vm_compute; reflexivity.
Defined.

(** Witness of X4. *)
Lemma get_weather_timestamp_from_last_body_witness :
  exists url r j,
    @str_format Mock.demo Mock.api_url 2 = Ok url /\
    @requests_get Mock.demo url = Ok r /\
    json r = Some j /\ getitem_str j "dt" = Ok (VInt 1700000002).
Proof.
  apply (@get_weather_timestamp_from_last_body Mock.demo Mock.api_url [3; 1] 2 []
           [VInt 0; VInt 5; VInt 80]
           [VStr "Clear"; VStr "Clear"; VStr "Rain"]
           [VStr "Clear"; VStr "Clear"; VStr "Rain"]
           (VInt 1700000002)).
  vm_compute; reflexivity.
Defined.

(** Witness of X5: London is not known to the provider, so the column of
    the cloud covers is a column of floats. *)
Lemma select_cities_rows_answered_clear_witness :
  exists cities_data cities_id row url r j cov cell,
    @gpd_read_file Mock.mixed path_data = Ok cities_data /\
    @pd_read_json Mock.mixed path_cityid = Ok cities_id /\
    In row (@sel_dataset_of reference_pandas cities_data cities_id 2) /\
    nameascii (place_of row) = "Paris" /\
    @str_format Mock.mixed (weather_url "key") (id (entry_of row)) = Ok url /\
    @requests_get Mock.mixed url = Ok r /\ json r = Some j /\
    status_code r = 200 /\
    weather_0_main j = Ok (VStr "Clear") /\
    clouds_all j = Ok cov /\ column_cell cov cell /\
    VFloat (Dyadic 5 0) = fill cell.
Proof.
  apply (@select_cities_rows_answered_clear Mock.mixed reference_pandas 2 "key"
           (fst (@select_cities Mock.mixed reference_pandas 2 "key"))
           [("Paris", VFloat (Dyadic 5 0))] "Paris" (VFloat (Dyadic 5 0))).
  - vm_compute; reflexivity.
  - left. reflexivity.
Defined.

(** Witness of X6, on the same run. *)
Lemma select_cities_returns_clear_cities_witness :
  exists cell,
    column_cell (VInt 5) cell /\
    In ("Paris", fill cell) [("Paris", VFloat (Dyadic 5 0))].
Proof.
  apply (@select_cities_returns_clear_cities Mock.mixed reference_pandas 2 "key"
           (fst (@select_cities Mock.mixed reference_pandas 2 "key"))
           [("Paris", VFloat (Dyadic 5 0))] Mock.places Mock.catalog
           Mock.paris_row
           (Mock.endpoint 1)
           (Mock.ok_response "Clear" "clear sky" 5 1700000001)
           (Mock.observation "Clear" "clear sky" 5 1700000001)
           (VInt 5));
    try (vm_compute; reflexivity).
  vm_compute. right. left. reflexivity.
Defined.

(** Witness of X7. *)
Lemma get_weather_lists_fit_selection_witness :
  exists rows,
    @assign_weather reference_pandas [Mock.london_row; Mock.paris_row]
      [VStr "Rain"; VStr "Clear"] [VStr "Rain"; VStr "Clear"]
      [VInt 80; VInt 5] = Ok rows /\
    map row_of rows = [Mock.london_row; Mock.paris_row].
Proof.
  apply (@get_weather_lists_fit_selection Mock.demo reference_pandas Mock.api_url
           [Mock.london_row; Mock.paris_row] []
           [VInt 80; VInt 5] [VStr "Rain"; VStr "Clear"]
           [VStr "Rain"; VStr "Clear"] (VInt 1700000001)).
  vm_compute; reflexivity.
Defined.

(** Witness of X8: all three cities are asked for. *)
Lemma select_cities_names_distinct_witness :
  NoDup (map fst [("Paris", VInt 5); ("Lyon", VInt 0)]).
Proof.
  apply (@select_cities_names_distinct Mock.demo reference_pandas 3 "key"
           (fst (@select_cities Mock.demo reference_pandas 3 "key"))
           [("Paris", VInt 5); ("Lyon", VInt 0)]).
  vm_compute; reflexivity.
Defined.

(** Witness of X9. *)
Lemma select_cities_rows_from_both_files_witness :
  exists cities_data cities_id p e,
    @gpd_read_file Mock.demo path_data = Ok cities_data /\
    @pd_read_json Mock.demo path_cityid = Ok cities_id /\
    In p cities_data /\ In e cities_id /\
    nameascii p = "Lyon" /\ name e = "Lyon" /\ iso_a2 p = country e.
Proof.
  apply (@select_cities_rows_from_both_files Mock.demo reference_pandas 3 "key"
           (fst (@select_cities Mock.demo reference_pandas 3 "key"))
           [("Paris", VInt 5); ("Lyon", VInt 0)] "Lyon" (VInt 0)).
  - vm_compute; reflexivity.
  - right. left. reflexivity.
Defined.

(** Witness of X10: Paris, listed twice in the catalog, with a count larger
    than the number of candidates. *)
Lemma matching_city_is_selected_witness :
  exists row,
    In row (@sel_dataset_of reference_pandas Mock.places Mock.catalog 50) /\
    nameascii (place_of row) = nameascii Mock.paris /\
    forall row',
      In row' (@sel_dataset_of reference_pandas Mock.places Mock.catalog 50) ->
      nameascii (place_of row') = nameascii Mock.paris -> row' = row.
Proof.
  apply (@matching_city_is_selected reference_pandas Mock.places Mock.catalog 50
           Mock.paris Mock.paris_id).
  - vm_compute. right. left. reflexivity.
  - vm_compute. right. left. reflexivity.
  - reflexivity.
  - reflexivity.
  - vm_compute. discriminate.
Defined.

(** Witness of X11. *)
Lemma select_cities_shows_two_maps_witness :
  exists cities_data cities_id covs descs mains dt seconds timestr rows,
    @gpd_read_file Mock.demo path_data = Ok cities_data /\
    @pd_read_json Mock.demo path_cityid = Ok cities_id /\
    snd (@get_weather Mock.demo (weather_url "key")
           (map (fun r => id (entry_of r))
                (@sel_dataset_of reference_pandas cities_data cities_id 2)))
      = Ok (covs, descs, mains, dt) /\
    @int_of_format Mock.demo dt = Ok seconds /\
    @strftime_localtime Mock.demo seconds = Ok timestr /\
    @assign_weather reference_pandas
      (@sel_dataset_of reference_pandas cities_data cities_id 2)
      mains descs covs = Ok rows /\
    fst (@select_cities Mock.demo reference_pandas 2 "key") =
      (@diagnostics_of Mock.demo (weather_url "key")
         (map (fun r => id (entry_of r))
              (@sel_dataset_of reference_pandas cities_data cities_id 2))
       ++ [Shown (fillna rows) (title_clouds_of 2);
           Shown (filter (fun r => is_clear (weather r)) (fillna rows))
                 (title_clear_of timestr)])%list /\
    [("Paris", VInt 5)] =
      project (filter (fun r => is_clear (weather r)) (fillna rows)).
Proof.
  apply (@select_cities_shows_two_maps Mock.demo reference_pandas 2 "key"
           (fst (@select_cities Mock.demo reference_pandas 2 "key"))
           [("Paris", VInt 5)]).
  vm_compute; reflexivity.
Defined.

(** Witness of X12. *)
Lemma select_cities_no_missing_value_witness : isna (VInt 5) = false.
Proof.
  apply (proj2 (@select_cities_no_missing_value Mock.demo reference_pandas 2 "key")
           [("Paris", VInt 5)] "Paris" (VInt 5)).
  - vm_compute; reflexivity.
  - left. reflexivity.
Defined.

(** Witness of X13: the answer for Paris has a float as [dt]. *)
Lemma select_cities_timestamp_not_integer_witness :
  @select_cities
    (Mock.world [Mock.paris] [Mock.paris_id]
       [(Mock.endpoint 1, Mock.float_dt_response)])
    reference_pandas 1 "key"
  = ([], Raise ValueError).
Proof.
  apply (@select_cities_timestamp_not_integer
           (Mock.world [Mock.paris] [Mock.paris_id]
              [(Mock.endpoint 1, Mock.float_dt_response)])
           reference_pandas 1 "key" [Mock.paris] [Mock.paris_id] []
           [VInt 5] [VStr "Clear"] [VStr "Clear"]
           (VFloat (Dyadic 1700000000 0)));
    try (vm_compute; reflexivity); intros; discriminate.
Defined.

(** Witness of X14: Paris reports a clear sky, on a machine without a
    display. *)
Lemma select_cities_first_map_fails_witness :
  @select_cities
    (Mock.headless [Mock.paris] [Mock.paris_id]
       [(Mock.endpoint 1, Mock.ok_response "Clear" "clear sky" 5 1700000000)])
    reference_pandas 1 "key"
  = ([], Raise (LibraryError "no display")).
Proof.
  apply (@select_cities_first_map_fails
           (Mock.headless [Mock.paris] [Mock.paris_id]
              [(Mock.endpoint 1, Mock.ok_response "Clear" "clear sky" 5 1700000000)])
           reference_pandas 1 "key" [Mock.paris] [Mock.paris_id] []
           [VInt 5] [VStr "Clear"] [VStr "Clear"] (VInt 1700000000)
           1700000000 "1700000000"
           [{| row_of := {| place_of := Mock.paris; entry_of := Mock.paris_id |};
               weather := VStr "Clear"; weather_description := VStr "Clear";
               clouds := VInt 5 |}]
           (LibraryError "no display"));
    vm_compute; reflexivity.
Defined.

(** Witness of C1: the two most populated of three cities are asked for,
    London reports rain and Paris a clear sky. *)
Lemma select_cities_clear_rows_witness :
  Z.of_nat (length [("Paris", VInt 5)]) <= 2 /\
  exists diagnostics shown title_clouds final_dataset title_clear,
    fst (@select_cities Mock.demo reference_pandas 2 "key") =
      (diagnostics
       ++ [Shown shown title_clouds; Shown final_dataset title_clear])%list /\
    [("Paris", VInt 5)] =
      map (fun r => (nameascii (place_of (row_of r)), clouds r)) final_dataset /\
    Forall (fun r => weather r = VStr "Clear" /\
                     @answered_clear Mock.demo "key" (row_of r)) final_dataset.
Proof.
  apply (@select_cities_clear_rows Mock.demo reference_pandas 2 "key"
           (fst (@select_cities Mock.demo reference_pandas 2 "key"))
           [("Paris", VInt 5)]).
  - lia.
  - vm_compute; reflexivity.
Defined.

(** Witness of C6 on the same run: the row of Paris joined with the entry of
    the other country is in neither dataset shown and in no row returned. *)
Lemma select_cities_country_codes_match_witness :
  Forall codes_match Mock.demo_shown /\
  Forall codes_match Mock.demo_clear /\
  exists cities_data cities_id diagnostics shown title_clouds
         final_dataset title_clear,
    @gpd_read_file Mock.demo path_data = Ok cities_data /\
    @pd_read_json Mock.demo path_cityid = Ok cities_id /\
    fst (@select_cities Mock.demo reference_pandas 2 "key") =
      (diagnostics
       ++ [Shown shown title_clouds; Shown final_dataset title_clear])%list /\
    [("Paris", VInt 5)] = project final_dataset /\
    Forall (fun r => In (row_of r)
                        (@merge reference_pandas
                           (@sort_values reference_pandas cities_data) cities_id)
                     /\ codes_match r) final_dataset /\
    forall row,
      iso_a2 (place_of row) <> country (entry_of row) ->
      ~ In row (map row_of shown) /\ ~ In row (map row_of final_dataset).
Proof.
  destruct (@select_cities_country_codes_match Mock.demo reference_pandas 2 "key")
    as [Hshown Hreturned].
  split; [|split].
  - apply (Hshown Mock.demo_shown (title_clouds_of 2)).
    vm_compute. left. reflexivity.
  - apply (Hshown Mock.demo_clear (title_clear_of "1700000001")).
    vm_compute. right. left. reflexivity.
  - apply (Hreturned (fst (@select_cities Mock.demo reference_pandas 2 "key"))
             [("Paris", VInt 5)]).
    vm_compute; reflexivity.
Defined.
